(** * The web provider of traefik (web.go): REST exposition of the
      current configuration, the PUT write path and the expvar dump.

    The development is a shallow embedding of [src/web.go].  Handlers are
    functions in a small state-and-panic monad over the part of the process
    they can touch: the stored configuration, the configuration channel, the
    response writer and a log of the calls made to collaborators. *)

From Stdlib Require Import ZArith Ascii String DecimalString DecimalPos DecimalFacts.
From stdpp Require Import base option list strings gmap sorting.

Set Warnings "-register-all".

Local Open Scope string_scope.
Local Open Scope Z_scope.

(** ** Byte strings

    Go strings and byte slices are sequences of bytes; they are modelled by
    [string], whose characters are the 256 values of [ascii]. *)

Module Bytes.

Definition code (c : ascii) : N := N_of_ascii c.

Definition hexDigit (n : N) : ascii :=
  if (n <? 10)%N then ascii_of_N (48 + n) else ascii_of_N (87 + n).

(** The two lower-case hexadecimal digits of a byte. *)
Definition hex2 (c : ascii) : string :=
  String (hexDigit (code c / 16)) (String (hexDigit (code c mod 16)) "").

(** The last [digits] lower-case hexadecimal digits of a number. *)
Fixpoint hexN (digits : nat) (n : N) : string :=
  match digits with
  | O => ""
  | S d => hexN d (n / 16) +:+ String (hexDigit (n mod 16)) ""
  end.

Definition ofZ (z : Z) : string := NilZero.string_of_int (Z.to_int z).

Fixpoint join (sep : string) (l : list string) : string :=
  match l with
  | [] => ""
  | [x] => x
  | x :: rest => x +:+ sep +:+ join sep rest
  end.

End Bytes.

(** ** UTF-8 *)

Module UTF8.

Definition chr (n : N) : ascii := ascii_of_N n.

(** The UTF-8 bytes of a code point.  Surrogate halves and values out of
    range are written as U+FFFD. *)
Definition encode (r : N) : string :=
  let r := if ((55296 <=? r) && (r <=? 57343) || (1114111 <? r))%N then 65533%N else r in
  if (r <? 128)%N then String (chr r) ""
  else if (r <? 2048)%N then
    String (chr (192 + r / 64)) (String (chr (128 + r mod 64)) "")
  else if (r <? 65536)%N then
    String (chr (224 + r / 4096))
      (String (chr (128 + (r / 64) mod 64)) (String (chr (128 + r mod 64)) ""))
  else
    String (chr (240 + r / 262144))
      (String (chr (128 + (r / 4096) mod 64))
         (String (chr (128 + (r / 64) mod 64)) (String (chr (128 + r mod 64)) ""))).

Definition isCont (c : ascii) : bool :=
  let n := Bytes.code c in ((128 <=? n) && (n <=? 191))%N.

(** Length of the well-formed UTF-8 sequence a string starts with, 0 when
    it starts with none. *)
Definition runeLen (s : string) : nat :=
  match s with
  | String a rest =>
      let x := Bytes.code a in
      if (x <? 128)%N then 1%nat
      else match rest with
      | String b rest2 =>
          let y := Bytes.code b in
          if ((194 <=? x) && (x <=? 223))%N then (if isCont b then 2%nat else 0%nat)
          else match rest2 with
          | String c rest3 =>
              let lo := if (x =? 224)%N then 160%N else if (x =? 240)%N then 144%N else 128%N in
              let hi := if (x =? 237)%N then 159%N else if (x =? 244)%N then 143%N else 191%N in
              if negb ((lo <=? y) && (y <=? hi))%N then 0%nat
              else if ((224 <=? x) && (x <=? 239))%N then (if isCont c then 3%nat else 0%nat)
              else if ((240 <=? x) && (x <=? 244))%N then
                match rest3 with
                | String d _ => if isCont c && isCont d then 4%nat else 0%nat
                | EmptyString => 0%nat
                end
              else 0%nat
          | EmptyString => 0%nat
          end
      | EmptyString => 0%nat
      end
  | EmptyString => 0%nat
  end.

(** The code point of the well-formed sequence a string starts with. *)
Definition decode (s : string) : N :=
  match runeLen s, s with
  | 1%nat, String a _ => Bytes.code a
  | 2%nat, String a (String b _) => (Bytes.code a - 192) * 64 + (Bytes.code b - 128)
  | 3%nat, String a (String b (String c _)) =>
      (Bytes.code a - 224) * 4096 + (Bytes.code b - 128) * 64 + (Bytes.code c - 128)
  | 4%nat, String a (String b (String c (String d _))) =>
      (Bytes.code a - 240) * 262144 + (Bytes.code b - 128) * 4096
      + (Bytes.code c - 128) * 64 + (Bytes.code d - 128)
  | _, _ => 65533
  end%N.

End UTF8.

(** ** JSON values and their text (encoding/json, writing direction) *)

Inductive JSON : Type :=
| JNull
| JBool (b : bool)
| JNumber (lit : string)
| JString (s : string)
| JArray (xs : list JSON)
| JObject (kvs : list (string * JSON)).

Module Encode.

(** One ASCII byte of a string literal, as [json.Marshal] writes it: the
    quote and the backslash are escaped, so are the control characters, and
    [<], [>] and [&] are written as [\u00XX]. *)
Definition escapeByte (c : ascii) : string :=
  let n := Bytes.code c in
  if (n =? 34)%N then "\" +:+ String c ""
  else if (n =? 92)%N then "\\"
  else if (n =? 10)%N then "\n"
  else if (n =? 13)%N then "\r"
  else if (n =? 9)%N then "\t"
  else if ((n <? 32) || (n =? 60) || (n =? 62) || (n =? 38))%N
       then "\u00" +:+ Bytes.hex2 c
  else String c "".

(** From 0x80 up the text is read as UTF-8: a byte that starts no
    well-formed sequence is written as [\ufffd], the line and paragraph
    separators U+2028 and U+2029 as [\u2028] and [\u2029], any other rune
    is copied.  [skip] counts the bytes of a rune still to be copied. *)
Fixpoint escapeFrom (skip : nat) (s : string) : string :=
  match skip, s with
  | _, EmptyString => ""
  | S n, String c rest => String c (escapeFrom n rest)
  | O, String c rest =>
      if (Bytes.code c <? 128)%N then escapeByte c +:+ escapeFrom 0 rest
      else
        match rest with
        | String c1 (String c2 rest2) =>
            if ((Bytes.code c =? 226) && (Bytes.code c1 =? 128)
                && ((Bytes.code c2 =? 168) || (Bytes.code c2 =? 169)))%N
            then "\u202" +:+ String (Bytes.hexDigit (Bytes.code c2 mod 16)) ""
                 +:+ escapeFrom 0 rest2
            else match UTF8.runeLen s with
                 | O => "\ufffd" +:+ escapeFrom 0 rest
                 | S n => String c (escapeFrom n rest)
                 end
        | _ =>
            match UTF8.runeLen s with
            | O => "\ufffd" +:+ escapeFrom 0 rest
            | S n => String c (escapeFrom n rest)
            end
        end
  end.

Definition escape (s : string) : string := escapeFrom 0 s.

Definition quote (s : string) : string :=
  String (ascii_of_N 34) (escape s) +:+ String (ascii_of_N 34) "".

(** Compact rendering, no white space, members in the order given. *)
Fixpoint text (j : JSON) : string :=
  match j with
  | JNull => "null"
  | JBool true => "true"
  | JBool false => "false"
  | JNumber lit => lit
  | JString s => quote s
  | JArray xs => "[" +:+ Bytes.join "," (map text xs) +:+ "]"
  | JObject kvs =>
      "{" +:+ Bytes.join "," (map (λ kv, quote kv.1 +:+ ":" +:+ text kv.2) kvs) +:+ "}"
  end.

End Encode.

(** ** Data model (package types) *)

(** Modelled from the spec: the entities below are declared in package
    [types], outside web.go.  A Server is an endpoint identity (address and
    weight), a leaf entity. *)
Record Server : Type := mkServer { URL : string; Weight : Z }.

(** Modelled from the spec: a Route is one matching rule and owns no
    children. *)
Record Route : Type := mkRoute { Rule : string }.

(** Modelled from the spec: a Backend owns a mapping from server id to
    Server; web.go reads it as [backend.Servers]. *)
Record Backend : Type := mkBackend { Servers : gmap string Server }.

(** Modelled from the spec: a Frontend owns a mapping from route id to Route
    (read as [frontend.Routes]) and names a backend. *)
Record Frontend : Type :=
  mkFrontend { FrontendBackend : string; Routes : gmap string Route }.

(** Modelled from the spec: one provider's configuration owns the backends
    and the frontends; web.go reads [provider.Backends] and
    [provider.Frontends]. *)
Record Configuration : Type :=
  mkConfiguration { Backends : gmap string Backend; Frontends : gmap string Frontend }.

(** Modelled from the spec: the snapshot, a mapping from provider id to that
    provider's configuration (type [configs] of package main). *)
Abbreviation configs := (gmap string Configuration).

(** The message put on the configuration channel; web.go builds it
    positionally as [types.ConfigMessage{"web", configuration}]. *)
Record ConfigMessage : Type :=
  mkConfigMessage { ProviderName : string; MsgConfiguration : Configuration }.

Definition zeroConfiguration : Configuration := mkConfiguration ∅ ∅.

(** ** Marshalling the entities *)

Class Marshal (A : Type) := toJSON : A → JSON.

Definition keyLe {A} (x y : string * A) : Prop := String.leb x.1 y.1 = true.

Global Instance keyLe_dec {A} (x y : string * A) : Decision (keyLe x y).
Proof. unfold keyLe. apply _. Defined.

(** Maps are written as objects with the keys in byte order. *)
Definition sortedMembers {A} (m : gmap string A) : list (string * A) :=
  merge_sort keyLe (map_to_list m).

Global Instance marshal_map {A} `{Marshal A} : Marshal (gmap string A) :=
  λ m, JObject (map (λ kv, (kv.1, toJSON kv.2)) (sortedMembers m)).

(** A member tagged [omitempty] is left out when its value is empty. *)
Definition omitempty (empty : bool) (k : string) (v : JSON) : list (string * JSON) :=
  if empty then [] else [(k, v)].

Definition isEmptyString (s : string) : bool :=
  match s with EmptyString => true | _ => false end.

Definition isEmptyMap {A} (m : gmap string A) : bool := bool_decide (m = ∅).

Global Instance marshal_Server : Marshal Server := λ s,
  JObject (omitempty (isEmptyString (URL s)) "url" (JString (URL s))
           ++ [("weight", JNumber (Bytes.ofZ (Weight s)))]).

Global Instance marshal_Route : Marshal Route := λ r,
  JObject (omitempty (isEmptyString (Rule r)) "rule" (JString (Rule r))).

Global Instance marshal_Backend : Marshal Backend := λ b,
  JObject (omitempty (isEmptyMap (Servers b)) "servers" (toJSON (Servers b))).

Global Instance marshal_Frontend : Marshal Frontend := λ f,
  JObject (omitempty (isEmptyString (FrontendBackend f)) "backend"
             (JString (FrontendBackend f))
           ++ omitempty (isEmptyMap (Routes f)) "routes" (toJSON (Routes f))).

Global Instance marshal_Configuration : Marshal Configuration := λ c,
  JObject (omitempty (isEmptyMap (Backends c)) "backends" (toJSON (Backends c))
           ++ omitempty (isEmptyMap (Frontends c)) "frontends" (toJSON (Frontends c))).

(** [json.Marshal]: the text of a value. *)
Definition Marshal_text {A} `{Marshal A} (v : A) : string := Encode.text (toJSON v).

(** ** Reading JSON text (encoding/json, reading direction)

    [json.Unmarshal] first runs its scanner over the whole input and only
    then decodes.  The scanner is a machine that is fed one byte at a time
    and keeps a stack of the arrays and objects that are open; it is
    modelled the same way, with the value under construction kept in the
    stack frames. *)

Module Scanner.

Inductive SyntaxError : Type :=
| UnexpectedEnd
| InvalidCharacter (c : ascii) (context : string).

Inductive Frame : Type :=
| FArray (done : list JSON)
| FObject (done : list (string * JSON)) (key : option string).

Inductive StrKind : Type := AsKey | AsValue.

(** The lexical state.  String states carry the raw literal read so far,
    number states the digits read so far, a literal state the bytes that
    are still expected. *)
Inductive Lex : Type :=
| BeginValue
| BeginValueOrEmpty
| BeginStringOrEmpty
| BeginString
| EndValue
| InString (k : StrKind) (raw : string)
| InStringEsc (k : StrKind) (raw : string)
| InStringEscU (k : StrKind) (raw : string) (left : nat)
| Neg (lit : string)
| Num0 (lit : string)
| Num1 (lit : string)
| Dot (lit : string)
| Dot0 (lit : string)
| Exp (lit : string)
| ExpSign (lit : string)
| Exp0 (lit : string)
| Literal (v : JSON) (name : string) (expect : string).

Record Machine : Type :=
  mkMachine { lex : Lex; stack : list Frame; top : option JSON }.

Definition start : Machine := mkMachine BeginValue [] None.

Definition snoc (s : string) (c : ascii) : string := s +:+ String c "".

Definition isSpace (c : ascii) : bool :=
  let n := Bytes.code c in ((n =? 32) || (n =? 9) || (n =? 13) || (n =? 10))%N.

Definition isDigit (c : ascii) : bool :=
  let n := Bytes.code c in ((48 <=? n) && (n <=? 57))%N.

Definition isDigit19 (c : ascii) : bool :=
  let n := Bytes.code c in ((49 <=? n) && (n <=? 57))%N.

Definition isHex (c : ascii) : bool :=
  let n := Bytes.code c in
  (((48 <=? n) && (n <=? 57)) || ((97 <=? n) && (n <=? 102)) || ((65 <=? n) && (n <=? 70)))%N.

Definition hexVal (c : ascii) : N :=
  let n := Bytes.code c in
  if (n <=? 57)%N then n - 48 else if (97 <=? n)%N then n - 87 else n - 55.

(** *** Unquoting a string literal *)

Definition hex4 (a b c d : ascii) : N :=
  (((hexVal a * 16 + hexVal b) * 16 + hexVal c) * 16 + hexVal d)%N.

Definition escapeChar (c : ascii) : ascii :=
  let n := Bytes.code c in
  if (n =? 98)%N then UTF8.chr 8 else if (n =? 102)%N then UTF8.chr 12
  else if (n =? 110)%N then UTF8.chr 10 else if (n =? 114)%N then UTF8.chr 13
  else if (n =? 116)%N then UTF8.chr 9 else c.

Definition isHigh (r : N) : bool := ((55296 <=? r) && (r <? 56320))%N.
Definition isLow (r : N) : bool := ((56320 <=? r) && (r <? 57344))%N.

(** [unquote] turns the raw inside of a literal the scanner accepted into
    the bytes it stands for.  [skip] counts the bytes of a multi-byte rune
    that are still to be copied. *)
Fixpoint unquoteFrom (skip : nat) (raw : string) : string :=
  match skip, raw with
  | _, EmptyString => ""
  | S n, String c rest => String c (unquoteFrom n rest)
  | O, String c rest =>
      if (Bytes.code c =? 92)%N then
        match rest with
        | String e rest1 =>
            if (Bytes.code e =? 117)%N then
              match rest1 with
              | String h1 (String h2 (String h3 (String h4 rest2))) =>
                  let r := hex4 h1 h2 h3 h4 in
                  match rest2 with
                  | String b (String u (String l1 (String l2 (String l3 (String l4 rest3))))) =>
                      let r2 := hex4 l1 l2 l3 l4 in
                      if isHigh r && (Bytes.code b =? 92)%N && (Bytes.code u =? 117)%N && isLow r2
                      then UTF8.encode (65536 + (r - 55296) * 1024 + (r2 - 56320)) +:+ unquoteFrom 0 rest3
                      else UTF8.encode r +:+ unquoteFrom 0 rest2
                  | _ => UTF8.encode r +:+ unquoteFrom 0 rest2
                  end
              | _ => ""
              end
            else String (escapeChar e) (unquoteFrom 0 rest1)
        | EmptyString => ""
        end
      else if (Bytes.code c <? 128)%N then String c (unquoteFrom 0 rest)
      else match UTF8.runeLen raw with
           | O => UTF8.encode 65533 +:+ unquoteFrom 0 rest
           | S n => String c (unquoteFrom n rest)
           end
  end.

Definition unquote (raw : string) : string := unquoteFrom 0 raw.

(** *** The machine *)

Definition at_ (l : Lex) (st : list Frame) : SyntaxError + Machine :=
  inr (mkMachine l st None).

Definition invalid (c : ascii) (context : string) : SyntaxError + Machine :=
  inl (InvalidCharacter c context).

(** A value is complete: it becomes the document, the next element of the
    open array, or the value of the pending key of the open object. *)
Definition emit (v : JSON) (st : list Frame) : SyntaxError + Machine :=
  match st with
  | [] => inr (mkMachine EndValue [] (Some v))
  | FArray done :: st' => at_ EndValue (FArray (v :: done) :: st')
  | FObject done key :: st' =>
      at_ EndValue (FObject ((default "" key, v) :: done) None :: st')
  end.

Definition finishString (k : StrKind) (raw : string) (st : list Frame)
  : SyntaxError + Machine :=
  match k, st with
  | AsKey, FObject done _ :: st' =>
      at_ EndValue (FObject done (Some (unquote raw)) :: st')
  | _, _ => emit (JString (unquote raw)) st
  end.

Definition isByte (c : ascii) (x : string) : bool :=
  match x with
  | String d EmptyString => bool_decide (c = d)
  | _ => false
  end.

(** stateEndValue, with stateEndTop for the empty stack. *)
Definition endValue (c : ascii) (m : Machine) : SyntaxError + Machine :=
  match stack m with
  | [] =>
      if isSpace c then inr (mkMachine EndValue [] (top m))
      else invalid c "after top-level value"
  | FObject done (Some k) :: st' =>
      if isSpace c then inr m
      else if isByte c ":" then at_ BeginValue (stack m)
      else invalid c "after object key"
  | FObject done None :: st' =>
      if isSpace c then inr m
      else if isByte c "," then at_ BeginString (stack m)
      else if isByte c "}" then emit (JObject (reverse done)) st'
      else invalid c "after object key:value pair"
  | FArray done :: st' =>
      if isSpace c then inr m
      else if isByte c "," then at_ BeginValue (stack m)
      else if isByte c "]" then emit (JArray (reverse done)) st'
      else invalid c "after array element"
  end.

Definition beginValue (c : ascii) (st : list Frame) : SyntaxError + Machine :=
  if isSpace c then at_ BeginValue st
  else if isByte c "{" then at_ BeginStringOrEmpty (FObject [] None :: st)
  else if isByte c "[" then at_ BeginValueOrEmpty (FArray [] :: st)
  else if (Bytes.code c =? 34)%N then at_ (InString AsValue "") st
  else if isByte c "-" then at_ (Neg "-") st
  else if isByte c "0" then at_ (Num0 "0") st
  else if isByte c "t" then at_ (Literal (JBool true) "true" "rue") st
  else if isByte c "f" then at_ (Literal (JBool false) "false" "alse") st
  else if isByte c "n" then at_ (Literal JNull "null" "ull") st
  else if isDigit19 c then at_ (Num1 (String c "")) st
  else invalid c "looking for beginning of value".

Definition beginString (c : ascii) (st : list Frame) : SyntaxError + Machine :=
  if isSpace c then at_ BeginString st
  else if (Bytes.code c =? 34)%N then at_ (InString AsKey "") st
  else invalid c "looking for beginning of object key string".

Definition number (lit : string) (c : ascii) (m : Machine) : SyntaxError + Machine :=
  match emit (JNumber lit) (stack m) with
  | inr m' => endValue c m'
  | inl e => inl e
  end.

Definition state0 (lit : string) (c : ascii) (m : Machine) : SyntaxError + Machine :=
  if isByte c "." then at_ (Dot (snoc lit c)) (stack m)
  else if isByte c "e" || isByte c "E" then at_ (Exp (snoc lit c)) (stack m)
  else number lit c m.

Definition stateESign (lit : string) (c : ascii) (m : Machine) : SyntaxError + Machine :=
  if isDigit c then at_ (Exp0 (snoc lit c)) (stack m)
  else invalid c "in exponent of numeric literal".

Definition step (m : Machine) (c : ascii) : SyntaxError + Machine :=
  let st := stack m in
  match lex m with
  | BeginValue => beginValue c st
  | BeginValueOrEmpty =>
      if isSpace c then at_ BeginValueOrEmpty st
      else if isByte c "]" then endValue c m
      else beginValue c st
  | BeginStringOrEmpty =>
      if isSpace c then at_ BeginStringOrEmpty st
      else if isByte c "}" then endValue c m
      else beginString c st
  | BeginString => beginString c st
  | EndValue => endValue c m
  | InString k raw =>
      if (Bytes.code c =? 34)%N then finishString k raw st
      else if (Bytes.code c =? 92)%N then at_ (InStringEsc k (snoc raw c)) st
      else if (Bytes.code c <? 32)%N then invalid c "in string literal"
      else at_ (InString k (snoc raw c)) st
  | InStringEsc k raw =>
      if isByte c "b" || isByte c "f" || isByte c "n" || isByte c "r" || isByte c "t"
         || (Bytes.code c =? 92)%N || isByte c "/" || (Bytes.code c =? 34)%N
      then at_ (InString k (snoc raw c)) st
      else if isByte c "u" then at_ (InStringEscU k (snoc raw c) 4) st
      else invalid c "in string escape code"
  | InStringEscU k raw n =>
      if isHex c then
        match n with
        | S (S n') => at_ (InStringEscU k (snoc raw c) (S n')) st
        | _ => at_ (InString k (snoc raw c)) st
        end
      else invalid c "in \u hexadecimal character escape"
  | Neg lit =>
      if isByte c "0" then at_ (Num0 (snoc lit c)) st
      else if isDigit19 c then at_ (Num1 (snoc lit c)) st
      else invalid c "in numeric literal"
  | Num1 lit => if isDigit c then at_ (Num1 (snoc lit c)) st else state0 lit c m
  | Num0 lit => state0 lit c m
  | Dot lit =>
      if isDigit c then at_ (Dot0 (snoc lit c)) st
      else invalid c "after decimal point in numeric literal"
  | Dot0 lit =>
      if isDigit c then at_ (Dot0 (snoc lit c)) st
      else if isByte c "e" || isByte c "E" then at_ (Exp (snoc lit c)) st
      else number lit c m
  | Exp lit =>
      if isByte c "+" || isByte c "-" then at_ (ExpSign (snoc lit c)) st
      else stateESign lit c m
  | ExpSign lit => stateESign lit c m
  | Exp0 lit => if isDigit c then at_ (Exp0 (snoc lit c)) st else number lit c m
  | Literal v name expect =>
      match expect with
      | String e rest =>
          if bool_decide (c = e) then
            match rest with
            | EmptyString => emit v st
            | _ => at_ (Literal v name rest) st
            end
          else invalid c ("in literal " +:+ name +:+ " (expecting '" +:+ String e "')")
      | EmptyString => endValue c m
      end
  end.

Fixpoint run (m : Machine) (s : string) : SyntaxError + Machine :=
  match s with
  | EmptyString => inr m
  | String c rest =>
      match step m c with
      | inr m' => run m' rest
      | inl e => inl e
      end
  end.

(** The end of the input is presented to the machine as one more space;
    the text is a JSON document when that leaves a complete top-level
    value. *)
Definition parse (s : string) : SyntaxError + JSON :=
  match run start s with
  | inl e => inl e
  | inr m =>
      match step m " " with
      | inr (mkMachine EndValue [] (Some v)) => inr v
      | inl e => inl e
      | _ => inl UnexpectedEnd
      end
  end.

Definition valid (s : string) : bool :=
  match parse s with inr _ => true | inl _ => false end.

(** *** A document inside a document *)







End Scanner.

(** ** Decoding a document into a configuration *)

Module Decode.

(** The two errors [json.Unmarshal] returns. *)
Inductive Error : Type :=
| Syntax (e : Scanner.SyntaxError)
| UnmarshalType (value : string) (goType : string).

(** [strconv.Quote] of one byte taken as a code point, without the outer
    quotes, as [quoteChar] uses it. *)
Definition quoteByte (c : ascii) : string :=
  let n := Bytes.code c in
  if (n =? 92)%N then "\\"
  else if (n =? 7)%N then "\a" else if (n =? 8)%N then "\b"
  else if (n =? 12)%N then "\f" else if (n =? 10)%N then "\n"
  else if (n =? 13)%N then "\r" else if (n =? 9)%N then "\t"
  else if (n =? 11)%N then "\v"
  else if ((n <? 32) || (n =? 127))%N then "\x" +:+ Bytes.hex2 c
  else if (n <? 127)%N then String c ""
  else if ((n <? 161) || (n =? 173))%N then "\u00" +:+ Bytes.hex2 c
  else UTF8.encode n.

Definition quoteChar (c : ascii) : string :=
  if (Bytes.code c =? 39)%N then "'\''"
  else if (Bytes.code c =? 34)%N then "'" +:+ String c "'"
  else "'" +:+ quoteByte c +:+ "'".

(** The method [Error()] of the error value; [%+v] prints the same text. *)
Definition ErrorText (e : Error) : string :=
  match e with
  | Syntax Scanner.UnexpectedEnd => "unexpected end of JSON input"
  | Syntax (Scanner.InvalidCharacter c context) =>
      "invalid character " +:+ quoteChar c +:+ " " +:+ context
  | UnmarshalType value goType =>
      "json: cannot unmarshal " +:+ value +:+ " into Go value of type " +:+ goType
  end.

Definition kind (j : JSON) : string :=
  match j with
  | JNull => "null"
  | JBool _ => "bool"
  | JNumber _ => "number"
  | JString _ => "string"
  | JArray _ => "array"
  | JObject _ => "object"
  end.

(** Decoding writes into a value that already exists and goes on after a
    type error; the first error is the one reported. *)
Definition Into (A : Type) : Type := JSON → A → A * option Error.

Definition first (e1 e2 : option Error) : option Error :=
  match e1 with Some _ => e1 | None => e2 end.

(** *** Member names

    A member is stored in the field whose name equals its key up to case;
    the Kelvin sign (U+212A) folds to K and the long s (U+017F) to S. *)
Definition upper (c : ascii) : ascii :=
  let n := Bytes.code c in
  if ((97 <=? n) && (n <=? 122))%N then ascii_of_N (n - 32) else c.

Fixpoint foldName (s : string) : string :=
  match s with
  | EmptyString => ""
  | String a rest =>
      match rest with
      | String b rest1 =>
          if ((Bytes.code a =? 197) && (Bytes.code b =? 191))%N
          then String "S" (foldName rest1)
          else match rest1 with
               | String c rest2 =>
                   if ((Bytes.code a =? 226) && (Bytes.code b =? 132)
                       && (Bytes.code c =? 170))%N
                   then String "K" (foldName rest2)
                   else String (upper a) (foldName rest)
               | EmptyString => String (upper a) (foldName rest)
               end
      | EmptyString => String (upper a) ""
      end
  end.

Definition names (field key : string) : bool :=
  bool_decide (foldName field = foldName key).

(** *** Scalars *)

Fixpoint digits (acc : Z) (s : string) : option Z :=
  match s with
  | EmptyString => Some acc
  | String c rest =>
      if Scanner.isDigit c then digits (acc * 10 + Z.of_N (Bytes.code c - 48)) rest
      else None
  end.

(** [strconv.ParseInt(lit, 10, 64)] on a literal the scanner accepted. *)
Definition parseInt (lit : string) : option Z :=
  let r := match lit with
           | String "-" rest => Z.opp <$> digits 0 rest
           | _ => digits 0 lit
           end in
  z ← r; if (- 2 ^ 63 <=? z) && (z <? 2 ^ 63) then Some z else None.

Definition intoString : Into string := λ j old,
  match j with
  | JString s => (s, None)
  | JNull => (old, None)
  | _ => (old, Some (UnmarshalType (kind j) "string"))
  end.

Definition intoInt : Into Z := λ j old,
  match j with
  | JNumber lit =>
      match parseInt lit with
      | Some z => (z, None)
      | None => (old, Some (UnmarshalType ("number " +:+ lit) "int"))
      end
  | JNull => (old, None)
  | _ => (old, Some (UnmarshalType (kind j) "int"))
  end.

(** *** Structs and maps *)

Fixpoint members {A} (field : string → Into A) (kvs : list (string * JSON)) (a : A)
  : A * option Error :=
  match kvs with
  | [] => (a, None)
  | (k, v) :: rest =>
      let '(a1, e1) := field k v a in
      let '(a2, e2) := members field rest a1 in
      (a2, first e1 e2)
  end.

Definition intoStruct {A} (goType : string) (field : string → Into A) : Into A := λ j old,
  match j with
  | JObject kvs => members field kvs old
  | JNull => (old, None)
  | _ => (old, Some (UnmarshalType (kind j) goType))
  end.

(** Every member of an object read into a map is decoded into a fresh
    element and stored under its key, a later duplicate replacing an
    earlier one; [null] empties the map. *)
Definition intoMap {A} (goType : string) (zero : A) (elem : Into A)
  : Into (gmap string A) := λ j old,
  match j with
  | JObject kvs =>
      members (λ k v m, let '(x, e) := elem v zero in (<[k := x]> m, e)) kvs old
  | JNull => (∅, None)
  | _ => (old, Some (UnmarshalType (kind j) goType))
  end.

Definition onField {A B} (get : A → B) (set : B → A → A) (dec : Into B) : Into A :=
  λ j a, let '(b, e) := dec j (get a) in (set b a, e).

Definition skip {A} : Into A := λ _ a, (a, None).

Definition intoServer : Into Server :=
  intoStruct "types.Server" (λ k,
    if names "url" k then onField URL (λ x s, mkServer x (Weight s)) intoString
    else if names "weight" k then onField Weight (λ x s, mkServer (URL s) x) intoInt
    else skip).

Definition intoRoute : Into Route :=
  intoStruct "types.Route" (λ k,
    if names "rule" k then onField Rule (λ x _, mkRoute x) intoString
    else skip).

Definition intoBackend : Into Backend :=
  intoStruct "types.Backend" (λ k,
    if names "servers" k then
      onField Servers (λ x _, mkBackend x)
        (intoMap "map[string]types.Server" (mkServer "" 0) intoServer)
    else skip).

Definition intoFrontend : Into Frontend :=
  intoStruct "types.Frontend" (λ k,
    if names "backend" k then
      onField FrontendBackend (λ x f, mkFrontend x (Routes f)) intoString
    else if names "routes" k then
      onField Routes (λ x f, mkFrontend (FrontendBackend f) x)
        (intoMap "map[string]types.Route" (mkRoute "") intoRoute)
    else skip).

Definition configurationField (k : string) : Into Configuration :=
  if names "backends" k then
    onField Backends (λ x c, mkConfiguration x (Frontends c))
      (intoMap "map[string]*types.Backend" (mkBackend ∅) intoBackend)
  else if names "frontends" k then
    onField Frontends (λ x c, mkConfiguration (Backends c) x)
      (intoMap "map[string]*types.Frontend" (mkFrontend "" ∅) intoFrontend)
  else skip.

Definition intoConfiguration : Into Configuration :=
  intoStruct "types.Configuration" configurationField.

(** [json.Unmarshal(data, configuration)]: the configuration after the
    call and the error returned. *)
Definition Unmarshal (data : string) (configuration : Configuration)
  : Configuration * option Error :=
  match Scanner.parse data with
  | inl e => (configuration, Some (Syntax e))
  | inr j => intoConfiguration j configuration
  end.

End Decode.

(** ** The process a handler runs in *)

Definition nl : string := String (ascii_of_N 10) "".
Definition dquote : string := String (ascii_of_N 34) "".

(** What [currentConfigurations.Get()] hands back is an untyped value;
    web.go asserts it to be of type [configs]. *)
Inductive Dyn : Type :=
| DynNil
| DynConfigs (c : configs)
| DynOther (goType : string).

(** Calls a handler makes to its collaborators, for the claims that count
    them. *)
Inductive Call : Type :=
| CallGet
| CallReadAll
| CallUnmarshal
| CallLog (line : string).

(** What the handlers take from the Go runtime: the number of goroutines,
    and the tables of package [strconv] that say which code points above
    U+00FF are printable. *)
Record Runtime : Type := mkRuntime { NumGoroutine : Z; printable : N → bool }.

(** An exported variable is known by its method [String()], which may look
    at the running process. *)
Definition Var : Type := Runtime → string.

Record ResponseWriter : Type := mkResponseWriter {
  Header : gmap string string;
  status : option Z;
  written : string
}.

Definition emptyResponse : ResponseWriter := mkResponseWriter ∅ None "".

Record World : Type := mkWorld {
  currentConfigurations : Dyn;
  configurationChan : list ConfigMessage;
  calls : list Call;
  expvars : gmap string Var;
  runtime : Runtime;
  metricsData : JSON;
  assets : string → ResponseWriter
}.

(** The world after some more calls were logged, and after a message was
    put on the channel. *)
Definition logged (cs : list Call) (w : World) : World :=
  mkWorld (currentConfigurations w) (configurationChan w) (calls w ++ cs)
    (expvars w) (runtime w) (metricsData w) (assets w).

Definition sent (m : ConfigMessage) (w : World) : World :=
  mkWorld (currentConfigurations w) (configurationChan w ++ [m]) (calls w)
    (expvars w) (runtime w) (metricsData w) (assets w).

Record HState : Type := mkHState { world : World; response : ResponseWriter }.

Inductive Outcome (A : Type) : Type :=
| Returned (a : A) (st : HState)
| Panicked (st : HState).
Arguments Returned {A} a st.
Arguments Panicked {A} st.

Definition Handler (A : Type) : Type := HState → Outcome A.

Global Instance Handler_ret : MRet Handler := λ A a st, Returned a st.

Global Instance Handler_bind : MBind Handler := λ A B f m st,
  match m st with
  | Returned a st' => f a st'
  | Panicked st' => Panicked st'
  end.

Definition panic {A} : Handler A := λ st, Panicked st.

Definition onWorld (f : World → World) : Handler unit :=
  λ st, Returned tt (mkHState (f (world st)) (response st)).

Definition onResponse (f : ResponseWriter → ResponseWriter) : Handler unit :=
  λ st, Returned tt (mkHState (world st) (f (response st))).

Definition readWorld {A} (f : World → A) : Handler A :=
  λ st, Returned (f (world st)) st.

Definition record (c : Call) : Handler unit := onWorld (logged [c]).

(** *** net/http *)

Definition StatusOK : Z := 200.
Definition StatusMovedPermanently : Z := 301.
Definition StatusBadRequest : Z := 400.
Definition StatusForbidden : Z := 403.
Definition StatusNotFound : Z := 404.

Definition Header_Set (k v : string) : Handler unit :=
  onResponse (λ r, mkResponseWriter (<[k := v]> (Header r)) (status r) (written r)).

(** The first status wins. *)
Definition WriteHeader (code : Z) : Handler unit :=
  onResponse (λ r, mkResponseWriter (Header r) (Some (default code (status r))) (written r)).

(** Writing before any status sends 200 first. *)
Definition Write (b : string) : Handler unit :=
  onResponse (λ r, mkResponseWriter (Header r) (Some (default StatusOK (status r)))
                     (written r +:+ b)).

(** [fmt.Fprintf(response, text)] with a text that has no verb. *)
Definition Fprintf (text : string) : Handler unit := Write text.

Definition http_Error (error : string) (code : Z) : Handler unit :=
  Header_Set "Content-Type" "text/plain; charset=utf-8";;
  Header_Set "X-Content-Type-Options" "nosniff";;
  WriteHeader code;;
  Write (error +:+ nl).

Definition http_NotFound : Handler unit := http_Error "404 page not found" StatusNotFound.

Definition http_Redirect (url : string) (code : Z) : Handler unit :=
  Header_Set "Location" url;;
  Header_Set "Content-Type" "text/html; charset=utf-8";;
  WriteHeader code;;
  Write ("<a href=" +:+ dquote +:+ url +:+ dquote +:+ ">Found</a>." +:+ nl +:+ nl).

(** *** unrolled/render: [templatesRenderer.JSON] *)

Definition render_JSON {A} `{Marshal A} (code : Z) (v : A) : Handler unit :=
  Header_Set "Content-Type" "application/json; charset=UTF-8";;
  WriteHeader code;;
  Write (Marshal_text v).

Global Instance marshal_JSON : Marshal JSON := λ j, j.

(** *** The stored configuration and the channel *)

Definition Get : Handler Dyn :=
  record CallGet;; readWorld currentConfigurations.

(** The type assertion [.(configs)]. *)
Definition assertConfigs (d : Dyn) : Handler configs :=
  match d with
  | DynConfigs c => mret c
  | _ => panic
  end.

(** [configurationChan <- m]; the channel is taken as a queue without
    bound, the oldest message first. *)
Definition send (m : ConfigMessage) : Handler unit := onWorld (sent m).

(** *** Requests *)

(** A request body is known by what [ioutil.ReadAll] gets out of it: the
    bytes up to the end or up to the failure, and the failure if any. *)
Record Body : Type := mkBody { bodyData : string; bodyErr : option string }.

Record Request : Type := mkRequest {
  Method : string;
  URLPath : string;
  RequestBody : Body;
  Vars : gmap string string
}.

Definition mux_Vars (request : Request) : gmap string string := Vars request.

(** Indexing a Go map of strings: the empty string when the key is absent. *)
Definition index (vars : gmap string string) (k : string) : string :=
  default "" (vars !! k).

Definition ioutil_ReadAll (b : Body) : Handler (string * option string) :=
  record CallReadAll;; mret (bodyData b, bodyErr b).

Definition json_Unmarshal (data : string) (configuration : Configuration)
  : Handler (Configuration * option Decode.Error) :=
  record CallUnmarshal;; mret (Decode.Unmarshal data configuration).

Definition log_Errorf (line : string) : Handler unit := record (CallLog line).

(** ** web.go *)

Record WebProvider : Type := mkWebProvider {
  Address : string;
  CertFile : string;
  KeyFile : string;
  ReadOnly : bool;
  (** [provider.server.globalConfiguration.Debug] *)
  Debug : bool
}.

(** [expvar.Func]: the variable whose text is the JSON of what [f] returns. *)
Definition Func (f : Runtime → JSON) : Var := λ rt, Encode.text (f rt).

Definition goroutines : Runtime → JSON :=
  λ rt, JNumber (Bytes.ofZ (NumGoroutine rt)).

(** [expvar.Publish]: a name can be published once. *)
Definition Publish (name : string) (v : Var) (vars : gmap string Var)
  : option (gmap string Var) :=
  match vars !! name with
  | Some _ => None
  | None => Some (<[name := v]> vars)
  end.

Definition init (vars : gmap string Var) : option (gmap string Var) :=
  Publish "Goroutines" (Func goroutines) vars.

Definition getHealthHandler (provider : WebProvider) (request : Request) : Handler unit :=
  data ← readWorld metricsData;
  render_JSON StatusOK data.

Definition getConfigHandler (provider : WebProvider) (request : Request) : Handler unit :=
  currentConfigurations ← Get ≫= assertConfigs;
  render_JSON StatusOK currentConfigurations.

Definition getProviderHandler (provider : WebProvider) (request : Request) : Handler unit :=
  let vars := mux_Vars request in
  let providerID := index vars "provider" in
  currentConfigurations ← Get ≫= assertConfigs;
  match currentConfigurations !! providerID with
  | Some provider => render_JSON StatusOK provider
  | None => http_NotFound
  end.

Definition getBackendsHandler (provider : WebProvider) (request : Request) : Handler unit :=
  let vars := mux_Vars request in
  let providerID := index vars "provider" in
  currentConfigurations ← Get ≫= assertConfigs;
  match currentConfigurations !! providerID with
  | Some provider => render_JSON StatusOK (Backends provider)
  | None => http_NotFound
  end.

Definition getBackendHandler (provider : WebProvider) (request : Request) : Handler unit :=
  let vars := mux_Vars request in
  let providerID := index vars "provider" in
  let backendID := index vars "backend" in
  currentConfigurations ← Get ≫= assertConfigs;
  match currentConfigurations !! providerID with
  | Some provider =>
      match Backends provider !! backendID with
      | Some backend => render_JSON StatusOK backend
      | None => http_NotFound
      end
  | None => http_NotFound
  end.

Definition getServersHandler (provider : WebProvider) (request : Request) : Handler unit :=
  let vars := mux_Vars request in
  let providerID := index vars "provider" in
  let backendID := index vars "backend" in
  currentConfigurations ← Get ≫= assertConfigs;
  match currentConfigurations !! providerID with
  | Some provider =>
      match Backends provider !! backendID with
      | Some backend => render_JSON StatusOK (Servers backend)
      | None => http_NotFound
      end
  | None => http_NotFound
  end.

Definition getServerHandler (provider : WebProvider) (request : Request) : Handler unit :=
  let vars := mux_Vars request in
  let providerID := index vars "provider" in
  let backendID := index vars "backend" in
  let serverID := index vars "server" in
  currentConfigurations ← Get ≫= assertConfigs;
  match currentConfigurations !! providerID with
  | Some provider =>
      match Backends provider !! backendID with
      | Some backend =>
          match Servers backend !! serverID with
          | Some server => render_JSON StatusOK server
          | None => http_NotFound
          end
      | None => http_NotFound
      end
  | None => http_NotFound
  end.

Definition getFrontendsHandler (provider : WebProvider) (request : Request) : Handler unit :=
  let vars := mux_Vars request in
  let providerID := index vars "provider" in
  currentConfigurations ← Get ≫= assertConfigs;
  match currentConfigurations !! providerID with
  | Some provider => render_JSON StatusOK (Frontends provider)
  | None => http_NotFound
  end.

Definition getFrontendHandler (provider : WebProvider) (request : Request) : Handler unit :=
  let vars := mux_Vars request in
  let providerID := index vars "provider" in
  let frontendID := index vars "frontend" in
  currentConfigurations ← Get ≫= assertConfigs;
  match currentConfigurations !! providerID with
  | Some provider =>
      match Frontends provider !! frontendID with
      | Some frontend => render_JSON StatusOK frontend
      | None => http_NotFound
      end
  | None => http_NotFound
  end.

Definition getRoutesHandler (provider : WebProvider) (request : Request) : Handler unit :=
  let vars := mux_Vars request in
  let providerID := index vars "provider" in
  let frontendID := index vars "frontend" in
  currentConfigurations ← Get ≫= assertConfigs;
  match currentConfigurations !! providerID with
  | Some provider =>
      match Frontends provider !! frontendID with
      | Some frontend => render_JSON StatusOK (Routes frontend)
      | None => http_NotFound
      end
  | None => http_NotFound
  end.

Definition getRouteHandler (provider : WebProvider) (request : Request) : Handler unit :=
  let vars := mux_Vars request in
  let providerID := index vars "provider" in
  let frontendID := index vars "frontend" in
  let routeID := index vars "route" in
  currentConfigurations ← Get ≫= assertConfigs;
  match currentConfigurations !! providerID with
  | Some provider =>
      match Frontends provider !! frontendID with
      | Some frontend =>
          match Routes frontend !! routeID with
          | Some route => render_JSON StatusOK route
          | None => http_NotFound
          end
      | None => http_NotFound
      end
  | None => http_NotFound
  end.

(** The function literal registered for PUT /api/providers/{provider}. *)
Definition putProviderHandler (provider : WebProvider) (request : Request) : Handler unit :=
  if ReadOnly provider then
    WriteHeader StatusForbidden;;
    Fprintf "REST API is in read-only mode"
  else
    let vars := mux_Vars request in
    if bool_decide (index vars "provider" ≠ "web") then
      WriteHeader StatusBadRequest;;
      Fprintf "Only 'web' provider can be updated through the REST API"
    else
      let configuration := zeroConfiguration in
      '(body, _) ← ioutil_ReadAll (RequestBody request);
      '(configuration, err) ← json_Unmarshal body configuration;
      match err with
      | None =>
          send (mkConfigMessage "web" configuration);;
          getConfigHandler provider request
      | Some err =>
          log_Errorf ("Error parsing configuration " +:+ Decode.ErrorText err);;
          http_Error (Decode.ErrorText err) StatusBadRequest
      end.

(** *** expvarHandler *)

Module strconv.

(** [strconv.IsPrint]: up to U+00FF the answer is fixed by the code, above
    it is looked up in the tables. *)
Definition IsPrint (table : N → bool) (r : N) : bool :=
  if (r <=? 255)%N then
    ((32 <=? r) && (r <=? 126) || (161 <=? r) && negb (r =? 173))%N
  else table r.

(** One ASCII byte as [strconv.Quote] writes it: the quote and the
    backslash are escaped, control bytes are written in Go syntax. *)
Definition quoteASCII (c : ascii) : string :=
  let n := Bytes.code c in
  if (n =? 34)%N then "\" +:+ String c ""
  else if (n =? 92)%N then "\\"
  else if (n =? 7)%N then "\a" else if (n =? 8)%N then "\b"
  else if (n =? 12)%N then "\f" else if (n =? 10)%N then "\n"
  else if (n =? 13)%N then "\r" else if (n =? 9)%N then "\t"
  else if (n =? 11)%N then "\v"
  else if ((n <? 32) || (n =? 127))%N then "\x" +:+ Bytes.hex2 c
  else String c "".

(** A rune that is not printable, in Go syntax. *)
Definition escapeRune (r : N) : string :=
  if (r <? 65536)%N then "\u" +:+ Bytes.hexN 4 r else "\U" +:+ Bytes.hexN 8 r.

(** From 0x80 up the text is read as UTF-8: a byte that starts no
    well-formed sequence is written as [\xNN], a printable rune is copied,
    any other rune is escaped.  [skip] counts the bytes of the current rune
    still to be passed, [copy] says whether they are copied. *)
Fixpoint quoteFrom (table : N → bool) (copy : bool) (skip : nat) (s : string) : string :=
  match skip, s with
  | _, EmptyString => ""
  | S n, String c rest =>
      if copy then String c (quoteFrom table copy n rest) else quoteFrom table copy n rest
  | O, String c rest =>
      if (Bytes.code c <? 128)%N then quoteASCII c +:+ quoteFrom table true 0 rest
      else match UTF8.runeLen s with
           | O => "\x" +:+ Bytes.hex2 c +:+ quoteFrom table true 0 rest
           | S n =>
               if IsPrint table (UTF8.decode s)
               then String c (quoteFrom table true n rest)
               else escapeRune (UTF8.decode s) +:+ quoteFrom table false n rest
           end
  end.

(** [strconv.Quote], which the verb [%q] applies to a string. *)
Definition Quote (table : N → bool) (s : string) : string :=
  dquote +:+ quoteFrom table true 0 s +:+ dquote.

End strconv.

Record KeyValue : Type := mkKeyValue { Key : string; Value : Var }.

(** [expvar.Do] calls [f] on every exported variable, in key order.  The
    function literal web.go passes keeps the flag [first] between calls;
    here the flag is handed from one call to the next. *)
Fixpoint Do_loop {S} (f : KeyValue → S → Handler S) (kvs : list (string * Var)) (s : S)
  : Handler S :=
  match kvs with
  | [] => mret s
  | (k, v) :: rest => s' ← f (mkKeyValue k v) s; Do_loop f rest s'
  end.

Definition expvar_Do {S} (f : KeyValue → S → Handler S) (s : S) : Handler S :=
  vars ← readWorld expvars;
  Do_loop f (sortedMembers vars) s.

(** [fmt.Fprintf(w, "%q: %s", kv.Key, kv.Value)] *)
Definition Fprintf_q_s (key : string) (value : Var) : Handler unit :=
  rt ← readWorld runtime;
  Write (strconv.Quote (printable rt) key +:+ ": " +:+ value rt).

Definition expvarHandler (r : Request) : Handler unit :=
  Header_Set "Content-Type" "application/json; charset=utf-8";;
  Fprintf ("{" +:+ nl);;
  let first := true in
  expvar_Do (λ kv first,
    (if negb first then Fprintf ("," +:+ nl) else mret tt);;
    Fprintf_q_s (Key kv) (Value kv);;
    mret false) first;;
  Fprintf (nl +:+ "}" +:+ nl).

(** ** gorilla/mux: routes and dispatch *)

Module mux.

(** The pieces of a path between slashes; [split "/a/b" = [""; "a"; "b"]]. *)
Fixpoint split (s : string) : list string :=
  match s with
  | EmptyString => [""]
  | String c rest =>
      if bool_decide (c = "/"%char) then "" :: split rest
      else match split rest with
           | h :: t => String c h :: t
           | [] => [String c ""]
           end
  end.

Inductive Segment : Type :=
| Lit (s : string)
| Param (name : string).

Fixpoint lastIs (c : ascii) (s : string) : bool :=
  match s with
  | EmptyString => false
  | String d EmptyString => bool_decide (c = d)
  | String _ rest => lastIs c rest
  end.

Fixpoint dropLast (s : string) : string :=
  match s with
  | EmptyString => ""
  | String _ EmptyString => ""
  | String d rest => String d (dropLast rest)
  end.

(** A piece of a template written [{name}] is a variable; it stands for
    one or more bytes other than the slash. *)
Definition segment (piece : string) : Segment :=
  match piece with
  | String "{" rest => if lastIs "}" rest then Param (dropLast rest) else Lit piece
  | _ => Lit piece
  end.

Definition template (tpl : string) : list Segment := segment <$> split tpl.

Fixpoint matchSegments (tpl : list Segment) (pieces : list string)
  : option (gmap string string) :=
  match tpl, pieces with
  | [], [] => Some ∅
  | Lit s :: tpl', p :: pieces' =>
      if bool_decide (s = p) then matchSegments tpl' pieces' else None
  | Param name :: tpl', p :: pieces' =>
      if bool_decide (p = "") then None
      else vars ← matchSegments tpl' pieces'; Some (<[name := p]> vars)
  | _, _ => None
  end.

Inductive Matcher : Type :=
| Path (tpl : string)
| PathPrefix (tpl : string).

Definition matchPath (m : Matcher) (path : string) : option (gmap string string) :=
  match m with
  | Path tpl => matchSegments (template tpl) (split path)
  | PathPrefix tpl => if String.prefix tpl path then Some ∅ else None
  end.

Record Route : Type := mkRoute {
  Methods : string;
  matcher : Matcher;
  HandlerFunc : Request → Handler unit
}.

Definition Router : Type := list Route.

Definition matches (request : Request) (r : Route) : option (gmap string string) :=
  if bool_decide (Methods r = Method request) then matchPath (matcher r) (URLPath request)
  else None.

(** The first route, in the order of registration, that matches the
    request, with the values of the variables of its template. *)
Fixpoint Match (router : Router) (request : Request)
  : option (Route * gmap string string) :=
  match router with
  | [] => None
  | r :: rest =>
      match matches request r with
      | Some vars => Some (r, vars)
      | None => Match rest request
      end
  end.

Definition setVars (request : Request) (vars : gmap string string) : Request :=
  mkRequest (Method request) (URLPath request) (RequestBody request) vars.

(** The matching route gets the request; a request no route matches gets
    the not-found handler. *)
Definition handle (router : Router) (request : Request) : Handler unit :=
  match Match router request with
  | Some (r, vars) => HandlerFunc r (setVars request vars)
  | None => http_NotFound
  end.

(** [path.Clean]: the shortest path that names the same place.  Going
    through the pieces of the path from left to right, an empty piece and
    the piece [.] are dropped, the piece [..] takes back the piece kept
    last (at the root it is dropped; in a path that is not rooted it is
    kept when there is nothing to take back). *)
Definition cleanStep (rooted : bool) (kept : list string) (piece : string) : list string :=
  if bool_decide (piece = "") || bool_decide (piece = ".") then kept
  else if bool_decide (piece = "..") then
    match kept with
    | last :: before =>
        if negb rooted && bool_decide (last = "..") then piece :: kept else before
    | [] => if rooted then [] else [piece]
    end
  else piece :: kept.

Definition path_Clean (path : string) : string :=
  match path with
  | EmptyString => "."
  | String c _ =>
      let rooted := bool_decide (c = "/"%char) in
      let kept := reverse (foldl (cleanStep rooted) [] (split path)) in
      if rooted then "/" +:+ Bytes.join "/" kept
      else match kept with [] => "." | _ => Bytes.join "/" kept end
  end.

(** mux's [cleanPath]: the path made rooted and cleaned, with the slash at
    its end put back. *)
Definition cleanPath (p : string) : string :=
  match p with
  | EmptyString => "/"
  | String c _ =>
      let p := if bool_decide (c = "/"%char) then p else "/" +:+ p in
      let np := path_Clean p in
      if lastIs "/" p && negb (bool_decide (np = "/")) then np +:+ "/" else np
  end.

(** [Router.ServeHTTP]: a request whose path is not in its clean form is
    redirected to the clean path before any route is tried.  (The Location
    is written here as the clean path itself; its URL escaping and the
    query are not part of the request as modelled.) *)
Definition ServeHTTP (router : Router) (request : Request) : Handler unit :=
  let p := cleanPath (URLPath request) in
  if bool_decide (p ≠ URLPath request) then
    Header_Set "Location" p;;
    WriteHeader StatusMovedPermanently
  else handle router request.

End mux.

(** [http.StripPrefix(prefix, h)], with the file server over the bundled
    assets known by the response it gives for a path. *)
Definition StripPrefix_FileServer (prefix : string) (request : Request) : Handler unit :=
  if String.prefix prefix (URLPath request) then
    serve ← readWorld assets;
    onResponse (λ _, serve (String.substring (String.length prefix)
                              (String.length (URLPath request) - String.length prefix)
                              (URLPath request)))
  else http_NotFound.

(** [Provide] builds the router; the server it then starts in a goroutine
    of its own hands every request to that router. *)
Definition Provide (provider : WebProvider) : mux.Router :=
  let systemRouter :=
    [ mux.mkRoute "GET" (mux.Path "/health") (getHealthHandler provider);
      mux.mkRoute "GET" (mux.Path "/api") (getConfigHandler provider);
      mux.mkRoute "GET" (mux.Path "/api/providers") (getConfigHandler provider);
      mux.mkRoute "GET" (mux.Path "/api/providers/{provider}") (getProviderHandler provider);
      mux.mkRoute "PUT" (mux.Path "/api/providers/{provider}") (putProviderHandler provider);
      mux.mkRoute "GET" (mux.Path "/api/providers/{provider}/backends")
        (getBackendsHandler provider);
      mux.mkRoute "GET" (mux.Path "/api/providers/{provider}/backends/{backend}")
        (getBackendHandler provider);
      mux.mkRoute "GET" (mux.Path "/api/providers/{provider}/backends/{backend}/servers")
        (getServersHandler provider);
      mux.mkRoute "GET"
        (mux.Path "/api/providers/{provider}/backends/{backend}/servers/{server}")
        (getServerHandler provider);
      mux.mkRoute "GET" (mux.Path "/api/providers/{provider}/frontends")
        (getFrontendsHandler provider);
      mux.mkRoute "GET" (mux.Path "/api/providers/{provider}/frontends/{frontend}")
        (getFrontendHandler provider);
      mux.mkRoute "GET" (mux.Path "/api/providers/{provider}/frontends/{frontend}/routes")
        (getRoutesHandler provider);
      mux.mkRoute "GET"
        (mux.Path "/api/providers/{provider}/frontends/{frontend}/routes/{route}")
        (getRouteHandler provider);
      mux.mkRoute "GET" (mux.Path "/") (λ _, http_Redirect "/dashboard/" 302);
      mux.mkRoute "GET" (mux.PathPrefix "/dashboard/") (StripPrefix_FileServer "/dashboard/") ] in
  if Debug provider then
    (systemRouter ++ [ mux.mkRoute "GET" (mux.Path "/debug/vars") expvarHandler ])%list
  else systemRouter.

(** One request served: the handler starts with an empty response writer. *)
Definition serve (provider : WebProvider) (request : Request) (w : World)
  : Outcome unit :=
  mux.ServeHTTP (Provide provider) request (mkHState w emptyResponse).

(** ** Requests and what comes back *)

Definition worldOf {A} (o : Outcome A) : World :=
  match o with Returned _ st | Panicked st => world st end.

Definition responseOf {A} (o : Outcome A) : ResponseWriter :=
  match o with Returned _ st | Panicked st => response st end.

Fixpoint noSlash (s : string) : bool :=
  match s with
  | EmptyString => true
  | String c rest => negb (bool_decide (c = "/"%char)) && noSlash rest
  end.

(** What a template variable can stand for: one or more bytes, no slash. *)
Definition isSegment (s : string) : bool := negb (bool_decide (s = "")) && noSlash s.

Definition GET (path : string) : Request := mkRequest "GET" path (mkBody "" None) ∅.

Definition PUT (path : string) (body : Body) : Request := mkRequest "PUT" path body ∅.

(** A piece of a path that [path.Clean] keeps. *)
Definition proper (piece : string) : Prop := piece ≠ "" ∧ piece ≠ "." ∧ piece ≠ "..".

(** An id that mux leaves in place: a segment other than [.] and [..]. *)
Definition isId (s : string) : bool :=
  isSegment s && negb (bool_decide (s = ".")) && negb (bool_decide (s = "..")).

(** The drill-down requests, by the ids in their path. *)
Inductive DrillDown : Type :=
| ToProvider (p : string)
| ToBackends (p : string)
| ToBackend (p b : string)
| ToServers (p b : string)
| ToServer (p b s : string)
| ToFrontends (p : string)
| ToFrontend (p f : string)
| ToRoutes (p f : string)
| ToRoute (p f r : string).

Definition pathOf (d : DrillDown) : string :=
  match d with
  | ToProvider p => "/api/providers/" +:+ p
  | ToBackends p => "/api/providers/" +:+ p +:+ "/backends"
  | ToBackend p b => "/api/providers/" +:+ p +:+ "/backends/" +:+ b
  | ToServers p b => "/api/providers/" +:+ p +:+ "/backends/" +:+ b +:+ "/servers"
  | ToServer p b s =>
      "/api/providers/" +:+ p +:+ "/backends/" +:+ b +:+ "/servers/" +:+ s
  | ToFrontends p => "/api/providers/" +:+ p +:+ "/frontends"
  | ToFrontend p f => "/api/providers/" +:+ p +:+ "/frontends/" +:+ f
  | ToRoutes p f => "/api/providers/" +:+ p +:+ "/frontends/" +:+ f +:+ "/routes"
  | ToRoute p f r =>
      "/api/providers/" +:+ p +:+ "/frontends/" +:+ f +:+ "/routes/" +:+ r
  end.

Definition idsOf (d : DrillDown) : list string :=
  match d with
  | ToProvider p | ToBackends p | ToFrontends p => [p]
  | ToBackend p x | ToServers p x | ToFrontend p x | ToRoutes p x => [p; x]
  | ToServer p x y | ToRoute p x y => [p; x; y]
  end.

Definition wellFormed (d : DrillDown) : bool := forallb isSegment (idsOf d).

(** The drill-down paths that are in clean form. *)
Definition canonical (d : DrillDown) : bool := forallb isId (idsOf d).

(** The drill-down as the specification words it: the ids are resolved
    from left to right, each against the mapping the previous one led to,
    and the first id that is absent ends the resolution with nothing. *)
Definition resolve (snapshot : configs) (d : DrillDown) : option JSON :=
  match d with
  | ToProvider p => cfg ← snapshot !! p; Some (toJSON cfg)
  | ToBackends p => cfg ← snapshot !! p; Some (toJSON (Backends cfg))
  | ToBackend p b => cfg ← snapshot !! p; x ← Backends cfg !! b; Some (toJSON x)
  | ToServers p b =>
      cfg ← snapshot !! p; x ← Backends cfg !! b; Some (toJSON (Servers x))
  | ToServer p b s =>
      cfg ← snapshot !! p; x ← Backends cfg !! b; y ← Servers x !! s; Some (toJSON y)
  | ToFrontends p => cfg ← snapshot !! p; Some (toJSON (Frontends cfg))
  | ToFrontend p f => cfg ← snapshot !! p; x ← Frontends cfg !! f; Some (toJSON x)
  | ToRoutes p f =>
      cfg ← snapshot !! p; x ← Frontends cfg !! f; Some (toJSON (Routes x))
  | ToRoute p f r =>
      cfg ← snapshot !! p; x ← Frontends cfg !! f; y ← Routes x !! r; Some (toJSON y)
  end.

(** The two responses of a drill-down. *)
Definition jsonResponse (code : Z) (j : JSON) : ResponseWriter :=
  mkResponseWriter {[ "Content-Type" := "application/json; charset=UTF-8" ]}
    (Some code) (Encode.text j).

Definition errorResponse (code : Z) (error : string) : ResponseWriter :=
  mkResponseWriter
    (<[ "X-Content-Type-Options" := "nosniff" ]>
       {[ "Content-Type" := "text/plain; charset=utf-8" ]})
    (Some code) (error +:+ nl).

Definition redirectResponse (location : string) : ResponseWriter :=
  mkResponseWriter {[ "Location" := location ]} (Some StatusMovedPermanently) "".

Definition notFoundResponse : ResponseWriter :=
  errorResponse StatusNotFound "404 page not found".

(** The variables mux sets for a drill-down path, and the handler the path
    is registered with. *)
Definition varsOf (d : DrillDown) : gmap string string :=
  match d with
  | ToProvider p | ToBackends p | ToFrontends p => {[ "provider" := p ]}
  | ToBackend p b | ToServers p b => <[ "provider" := p ]> {[ "backend" := b ]}
  | ToServer p b s => <[ "provider" := p ]> (<[ "backend" := b ]> {[ "server" := s ]})
  | ToFrontend p f | ToRoutes p f => <[ "provider" := p ]> {[ "frontend" := f ]}
  | ToRoute p f r => <[ "provider" := p ]> (<[ "frontend" := f ]> {[ "route" := r ]})
  end.

Definition handlerOf (d : DrillDown) : WebProvider → Request → Handler unit :=
  match d with
  | ToProvider _ => getProviderHandler
  | ToBackends _ => getBackendsHandler
  | ToBackend _ _ => getBackendHandler
  | ToServers _ _ => getServersHandler
  | ToServer _ _ _ => getServerHandler
  | ToFrontends _ => getFrontendsHandler
  | ToFrontend _ _ => getFrontendHandler
  | ToRoutes _ _ => getRoutesHandler
  | ToRoute _ _ _ => getRouteHandler
  end.

Definition drillResponse (snapshot : configs) (d : DrillDown) : ResponseWriter :=
  match resolve snapshot d with
  | Some j => jsonResponse StatusOK j
  | None => notFoundResponse
  end.

(** ** Vocabulary of the statements *)

(** The pieces of a drill-down path. *)
Definition piecesOf (d : DrillDown) : list string :=
  match d with
  | ToProvider p => [""; "api"; "providers"; p]
  | ToBackends p => [""; "api"; "providers"; p; "backends"]
  | ToBackend p b => [""; "api"; "providers"; p; "backends"; b]
  | ToServers p b => [""; "api"; "providers"; p; "backends"; b; "servers"]
  | ToServer p b s => [""; "api"; "providers"; p; "backends"; b; "servers"; s]
  | ToFrontends p => [""; "api"; "providers"; p; "frontends"]
  | ToFrontend p f => [""; "api"; "providers"; p; "frontends"; f]
  | ToRoutes p f => [""; "api"; "providers"; p; "frontends"; f; "routes"]
  | ToRoute p f r => [""; "api"; "providers"; p; "frontends"; f; "routes"; r]
  end.

Definition providerOf (d : DrillDown) : string :=
  match d with
  | ToProvider p | ToBackends p | ToBackend p _ | ToServers p _ | ToServer p _ _
  | ToFrontends p | ToFrontend p _ | ToRoutes p _ | ToRoute p _ _ => p
  end.

(** A member whose key names no field of the configuration is skipped. *)
Definition known (k : string) : bool :=
  Decode.names "backends" k || Decode.names "frontends" k.





(** The two refusals of the PUT handler. *)
Definition forbiddenResponse : ResponseWriter :=
  mkResponseWriter ∅ (Some StatusForbidden) "REST API is in read-only mode".

Definition wrongTargetResponse : ResponseWriter :=
  mkResponseWriter ∅ (Some StatusBadRequest)
    "Only 'web' provider can be updated through the REST API".

(** A handler is quiet when all it does to the process is make calls. *)
Definition quiet (h : Handler unit) : Prop :=
  ∀ st, ∃ cs, worldOf (h st) = logged cs (world st).

(** ** The snapshot store over the life of the process *)

(** Modelled from the spec: the snapshot store.  Package [safe] and the
    code of the server that creates the store and installs snapshots lie
    outside web.go.  Before the first install the store holds an empty
    snapshot. *)
Definition emptyStore : Dyn := DynConfigs ∅.

(** Modelled from the spec: [Store] replaces the visible snapshot. *)
Definition Store (snapshot : configs) (w : World) : World :=
  mkWorld (DynConfigs snapshot) (configurationChan w) (calls w) (expvars w)
    (runtime w) (metricsData w) (assets w).

(** Modelled from the spec: what happens in the process besides requests.
    The aggregation installs a snapshot, the consumer of the channel takes
    the oldest message, the runtime and the metrics move on. *)
Inductive Step (provider : WebProvider) : World → World → Prop :=
| StepStore snapshot w :
    Step provider w (Store snapshot w)
| StepReceive m rest w :
    configurationChan w = m :: rest →
    Step provider w
      (mkWorld (currentConfigurations w) rest (calls w) (expvars w)
         (runtime w) (metricsData w) (assets w))
| StepRuntime rt metrics w :
    Step provider w
      (mkWorld (currentConfigurations w) (configurationChan w) (calls w) (expvars w)
         rt metrics (assets w))
| StepServe request w :
    Step provider w (worldOf (serve provider request w)).

(** Modelled from the spec: the states of the process.  It starts after
    the package's [init] has run on the variables published before it,
    with the empty snapshot in the store. *)
Inductive Reachable (provider : WebProvider) : World → Prop :=
| ReachStart vars0 w :
    init vars0 = Some (expvars w) →
    currentConfigurations w = emptyStore →
    Reachable provider w
| ReachStep w w' :
    Reachable provider w → Step provider w w' → Reachable provider w'.

(** The GET requests that are answered from the snapshot: the two paths
    of the whole snapshot and the drill-down paths. *)
Inductive ApiGet : Type :=
| Whole (providers : bool)
| Drill (d : DrillDown).

Definition apiPath (a : ApiGet) : string :=
  match a with
  | Whole false => "/api"
  | Whole true => "/api/providers"
  | Drill d => pathOf d
  end.

Definition apiWellFormed (a : ApiGet) : bool :=
  match a with
  | Whole _ => true
  | Drill d => wellFormed d
  end.

Definition apiCanonical (a : ApiGet) : bool :=
  match a with
  | Whole _ => true
  | Drill d => canonical d
  end.

Definition apiResponse (snapshot : configs) (a : ApiGet) : ResponseWriter :=
  match a with
  | Whole _ => jsonResponse StatusOK (toJSON snapshot)
  | Drill d => drillResponse snapshot d
  end.

(** ** Examples to evaluate the model on

    The snapshot of the specification's example: a provider "docker" with
    one backend "web-backend". *)

Definition sampleSnapshot : configs :=
  {[ "docker" :=
       mkConfiguration
         {[ "web-backend" := mkBackend {[ "server1" := mkServer "http://172.17.0.2:80" 1 ]} ]}
         {[ "web-frontend" := mkFrontend "web-backend" {[ "host" := mkRoute "Host:web.local" ]} ]} ]}.

Definition sampleWorld (stored : Dyn) : World :=
  mkWorld stored [] [] {[ "Goroutines" := Func goroutines ]} (mkRuntime 8 (λ _, true))
    (JObject []) (λ _, emptyResponse).

Definition readWrite : WebProvider := mkWebProvider ":8080" "" "" false false.
Definition readOnly : WebProvider := mkWebProvider ":8080" "" "" true false.
Definition debugging : WebProvider := mkWebProvider ":8080" "" "" false true.

(** ** Vocabulary of the further properties *)

(** Whether the stored value passes the assertion to [configs]. *)
Definition holdsConfigs (d : Dyn) : bool :=
  match d with DynConfigs _ => true | _ => false end.

(** The request one level up: an entity's listing, a listing's owner. *)
Definition parent (d : DrillDown) : option DrillDown :=
  match d with
  | ToProvider _ => None
  | ToBackends p | ToFrontends p => Some (ToProvider p)
  | ToBackend p _ => Some (ToBackends p)
  | ToServers p b => Some (ToBackend p b)
  | ToServer p b _ => Some (ToServers p b)
  | ToFrontend p _ => Some (ToFrontends p)
  | ToRoutes p f => Some (ToFrontend p f)
  | ToRoute p f _ => Some (ToRoutes p f)
  end.

(** For a request of one entity, the request of the listing the entity is
    in, and the id it has there. *)
Definition listingOf (d : DrillDown) : option (DrillDown * string) :=
  match d with
  | ToBackend p b => Some (ToBackends p, b)
  | ToServer p b s => Some (ToServers p b, s)
  | ToFrontend p f => Some (ToFrontends p, f)
  | ToRoute p f r => Some (ToRoutes p f, r)
  | _ => None
  end.

(** The member of a JSON object under a key. *)
Definition JSON_member (k : string) (j : JSON) : option JSON :=
  match j with
  | JObject kvs => snd <$> List.find (λ kv, bool_decide (kv.1 = k)) kvs
  | _ => None
  end.


(** * Proofs *)

(** ** Running handlers *)

Ltac run :=
  cbv [mbind Handler_bind mret Handler_ret Get assertConfigs record readWorld
    onWorld onResponse render_JSON http_NotFound http_Error Header_Set WriteHeader
    Write Fprintf world response panic send ioutil_ReadAll json_Unmarshal log_Errorf].

Ltac unfold_handlers :=
  unfold getProviderHandler, getBackendsHandler, getBackendHandler, getServersHandler,
    getServerHandler, getFrontendsHandler, getFrontendHandler, getRoutesHandler,
    getRouteHandler, getConfigHandler, getHealthHandler, mux_Vars, index.

(** ** Routing *)

Lemma split_noSlash a : noSlash a = true → mux.split a = [a].
Proof.
  induction a as [|c a IH]; simpl; [done|].
  intros [Hc Ha]%andb_prop. apply negb_true_iff in Hc. rewrite Hc, IH; done.
Qed.

Lemma split_app a rest :
  noSlash a = true → mux.split (a +:+ String "/" rest) = a :: mux.split rest.
Proof.
  induction a as [|c a IH]; simpl; [done|].
  intros [Hc Ha]%andb_prop. apply negb_true_iff in Hc. rewrite Hc, IH; done.
Qed.

Lemma split_app_lit a lit rest :
  noSlash a = true →
  mux.split (a +:+ String "/" lit +:+ rest) = a :: mux.split (lit +:+ rest).
Proof. apply (split_app a (lit +:+ rest)). Qed.

Lemma isSegment_inv s : isSegment s = true → bool_decide (s = "") = false ∧ noSlash s = true.
Proof. intros [H1 H2]%andb_prop. by apply negb_true_iff in H1. Qed.

Ltac segments :=
  repeat match goal with
  | H : wellFormed _ = true |- _ => unfold wellFormed in H; cbn [idsOf forallb] in H
  | H : _ && _ = true |- _ => apply andb_prop in H; destruct H
  | H : isSegment _ = true |- _ => apply isSegment_inv in H; destruct H
  end.

Ltac drop_nil :=
  repeat match goal with |- context [ "" +:+ ?x ] => change ("" +:+ x) with x end.

Lemma split_pathOf d : wellFormed d = true → mux.split (pathOf d) = piecesOf d.
Proof.
  intros H. destruct d; segments; simpl; drop_nil;
    repeat (first [rewrite split_app by done | rewrite split_app_lit by done];
            simpl; drop_nil);
    rewrite ?split_noSlash by done; reflexivity.
Qed.

Lemma split_nonempty s : mux.split s ≠ [].
Proof.
  destruct s as [|c s]; cbn; [done|].
  case_bool_decide; [done|]. by destruct (mux.split s).
Qed.

(** Joining the pieces of a path with slashes gives the path back. *)
Lemma join_split s : Bytes.join "/" (mux.split s) = s.
Proof.
  induction s as [|c s IH]; [done|]. cbn [mux.split]. case_bool_decide as Hc.
  - subst c. pose proof (split_nonempty s) as Hne.
    destruct (mux.split s) as [|h t]; [done|].
    change (Bytes.join "/" ("" :: h :: t)) with ("/" +:+ Bytes.join "/" (h :: t)).
    by rewrite IH.
  - pose proof (split_nonempty s) as Hne.
    destruct (mux.split s) as [|h t]; [done|]. rewrite <- IH.
    destruct t as [|h' t]; reflexivity.
Qed.

(** ** Clean paths *)

Lemma cleanStep_proper rooted kept piece :
  proper piece → mux.cleanStep rooted kept piece = piece :: kept.
Proof.
  intros (H1 & H2 & H3). unfold mux.cleanStep.
  by rewrite !bool_decide_eq_false_2 by done.
Qed.

Lemma foldl_cleanStep_proper rooted kept pieces :
  Forall proper pieces →
  foldl (mux.cleanStep rooted) kept pieces = (reverse pieces ++ kept)%list.
Proof.
  intros H. revert kept. induction H as [|piece pieces Hp _ IH]; intros kept; [done|].
  cbn [foldl]. rewrite cleanStep_proper by done. rewrite IH, reverse_cons.
  by rewrite <- (assoc_L (++)).
Qed.

Lemma lastIs_split s : mux.lastIs "/" s = true → last (mux.split s) = Some "".
Proof.
  induction s as [|c s IH]; [done|]. cbn [mux.lastIs mux.split].
  destruct s as [|c' s'].
  - intros Hc. apply bool_decide_eq_true_1 in Hc. subst c. reflexivity.
  - intros H. specialize (IH H).
    pose proof (join_split (String c' s')) as Hj.
    destruct (mux.split (String c' s')) as [|h t] eqn:Hs; [done|].
    case_bool_decide.
    + by rewrite last_cons, IH.
    + destruct t as [|h' t].
      * cbn in IH. injection IH as ->. cbn in Hj. discriminate.
      * rewrite last_cons_cons. by rewrite last_cons_cons in IH.
Qed.

(** A rooted path all of whose pieces are proper is its own clean form. *)
Lemma cleanPath_pieces path pieces :
  mux.split path = "" :: pieces →
  pieces ≠ [] →
  Forall proper pieces →
  mux.cleanPath path = path.
Proof.
  intros Hs Hne Hp.
  assert (path = String "/" (Bytes.join "/" pieces)) as Hpath.
  { rewrite <- (join_split path), Hs. by destruct pieces. }
  assert (Bytes.join "/" ("" :: pieces) = "/" +:+ Bytes.join "/" pieces) as Hj
    by (by destruct pieces).
  assert (mux.lastIs "/" path = false) as Hlast.
  { destruct (mux.lastIs "/" path) eqn:Hl; [|done].
    apply lastIs_split in Hl. rewrite Hs in Hl.
    destruct pieces as [|p ps]; [done|]. rewrite last_cons_cons in Hl.
    pose proof (last_Some_elem_of _ _ Hl) as Hl'.
    rewrite Forall_forall in Hp. by destruct (Hp _ Hl') as [? _]. }
  set (J := Bytes.join "/" pieces) in *. clearbody J. subst path.
  unfold mux.cleanPath, mux.path_Clean. cbv zeta.
  rewrite (bool_decide_eq_true_2 ("/"%char = "/"%char)) by done.
  rewrite Hlast, Hs. cbn [andb foldl].
  replace (mux.cleanStep true [] "") with (@nil string) by reflexivity.
  rewrite foldl_cleanStep_proper by done.
  rewrite app_nil_r, reverse_involutive.
  apply (f_equal (Bytes.join "/")) in Hs. rewrite join_split in Hs.
  rewrite Hs. by destruct pieces.
Qed.

Lemma isId_inv s : isId s = true → isSegment s = true ∧ proper s.
Proof.
  unfold isId. intros [[H1 H2]%andb_prop H3]%andb_prop.
  apply negb_true_iff, bool_decide_eq_false_1 in H2.
  apply negb_true_iff, bool_decide_eq_false_1 in H3.
  split; [done|]. repeat split; try done.
  intros ->. discriminate.
Qed.

Lemma canonical_wellFormed d : canonical d = true → wellFormed d = true.
Proof.
  unfold canonical, wellFormed. destruct d; cbn [idsOf forallb]; intros H;
    repeat match goal with H : _ && _ = true |- _ => apply andb_prop in H as [? ?] end;
    repeat match goal with H : isId _ = true |- _ =>
      apply isId_inv in H as [H _]; rewrite H; clear H end;
    reflexivity.
Qed.

Lemma canonical_clean d : canonical d = true → mux.cleanPath (pathOf d) = pathOf d.
Proof.
  intros H. pose proof (split_pathOf d (canonical_wellFormed d H)) as Hs.
  unfold canonical in H.
  destruct d; cbn [idsOf forallb] in H; cbn [piecesOf] in Hs;
    apply (cleanPath_pieces _ _ Hs); try done;
    repeat match goal with H : _ && _ = true |- _ => apply andb_prop in H as [? ?] end;
    repeat match goal with H : isId _ = true |- _ => apply isId_inv in H as [_ H] end;
    repeat (apply Forall_cons; split; [first [assumption | by repeat split] |]);
    apply Forall_nil_2.
Qed.

Lemma isId_clean id :
  isId id = true → mux.cleanPath ("/api/providers/" +:+ id) = "/api/providers/" +:+ id.
Proof.
  intros H. apply (canonical_clean (ToProvider id)).
  unfold canonical. cbn. by rewrite H.
Qed.

(** ** Serving a request *)

Lemma serve_clean provider request w :
  mux.cleanPath (URLPath request) = URLPath request →
  serve provider request w = mux.handle (Provide provider) request (mkHState w emptyResponse).
Proof.
  intros H. unfold serve, mux.ServeHTTP. cbv zeta.
  by rewrite bool_decide_eq_false_2 by (by intros []).
Qed.

Lemma serve_redirect provider request w :
  mux.cleanPath (URLPath request) ≠ URLPath request →
  serve provider request w
  = Returned tt (mkHState w (redirectResponse (mux.cleanPath (URLPath request)))).
Proof.
  intros H. unfold serve, mux.ServeHTTP. cbv zeta.
  by rewrite bool_decide_eq_true_2 by done.
Qed.

Ltac dispatch Hs :=
  unfold mux.handle, Provide;
  match goal with |- context [Debug ?p] => destruct (Debug p) end;
  cbn [mux.Match app]; unfold mux.matches, mux.matchPath;
  cbn [mux.Methods mux.matcher Method URLPath GET PUT];
  rewrite ?Hs; simpl;
  repeat match goal with
  | H : bool_decide (?s = "") = false |- context [bool_decide (?s = "")] => rewrite H; simpl
  end.

(** A drill-down path reaches the handler registered for its shape, with
    the ids of the path as the variables. *)
Lemma dispatch_drill provider d body vars :
  wellFormed d = true →
  mux.handle (Provide provider) (mkRequest "GET" (pathOf d) body vars)
  = handlerOf d provider (mkRequest "GET" (pathOf d) body (varsOf d)).
Proof.
  intros H. pose proof (split_pathOf d H) as Hs.
  destruct d; segments; cbn [piecesOf] in Hs; dispatch Hs; reflexivity.
Qed.

Lemma dispatch_put provider id body vars :
  isSegment id = true →
  mux.handle (Provide provider) (mkRequest "PUT" ("/api/providers/" +:+ id) body vars)
  = putProviderHandler provider
      (mkRequest "PUT" ("/api/providers/" +:+ id) body {[ "provider" := id ]}).
Proof.
  intros H.
  assert (wellFormed (ToProvider id) = true) as Hs%split_pathOf
    by (unfold wellFormed; cbn; by rewrite H).
  cbn [pathOf piecesOf] in Hs. segments. dispatch Hs; reflexivity.
Qed.

Lemma dispatch_config provider path body vars :
  path = "/api" ∨ path = "/api/providers" →
  mux.handle (Provide provider) (mkRequest "GET" path body vars)
  = getConfigHandler provider (mkRequest "GET" path body ∅).
Proof.
  intros [-> | ->]; unfold mux.handle, Provide; destruct (Debug provider); reflexivity.
Qed.

Lemma dispatch_health provider body vars :
  mux.handle (Provide provider) (mkRequest "GET" "/health" body vars)
  = getHealthHandler provider (mkRequest "GET" "/health" body ∅).
Proof. unfold mux.handle, Provide; destruct (Debug provider); reflexivity. Qed.



(** ** The handlers on a given snapshot *)

Lemma getConfigHandler_snapshot provider request w snapshot :
  currentConfigurations w = DynConfigs snapshot →
  getConfigHandler provider request (mkHState w emptyResponse)
  = Returned tt (mkHState (logged [CallGet] w) (jsonResponse StatusOK (toJSON snapshot))).
Proof.
  intros Hc. unfold_handlers. run. cbn [currentConfigurations logged]. by rewrite Hc.
Qed.

Lemma handler_resolve provider d request w snapshot :
  Vars request = varsOf d →
  currentConfigurations w = DynConfigs snapshot →
  handlerOf d provider request (mkHState w emptyResponse)
  = Returned tt (mkHState (logged [CallGet] w) (drillResponse snapshot d)).
Proof.
  intros Hv Hc.
  destruct d; cbn [handlerOf]; unfold_handlers; rewrite Hv; cbn [varsOf];
    simplify_map_eq; run; cbn [currentConfigurations logged]; rewrite Hc;
    unfold drillResponse, resolve;
    repeat (match goal with |- context [ ?m !! ?k ] => destruct (m !! k) eqn:? end;
            cbn [mbind option_bind]);
    reflexivity.
Qed.

Lemma serve_drill provider d w snapshot :
  wellFormed d = true →
  mux.cleanPath (pathOf d) = pathOf d →
  currentConfigurations w = DynConfigs snapshot →
  serve provider (GET (pathOf d)) w
  = Returned tt (mkHState (logged [CallGet] w) (drillResponse snapshot d)).
Proof.
  intros Hd Hp Hc. rewrite serve_clean by done. unfold GET.
  rewrite dispatch_drill by done. by apply handler_resolve.
Qed.

Lemma serve_drill_canonical provider d w snapshot :
  canonical d = true →
  currentConfigurations w = DynConfigs snapshot →
  serve provider (GET (pathOf d)) w
  = Returned tt (mkHState (logged [CallGet] w) (drillResponse snapshot d)).
Proof.
  intros Hd Hc. apply serve_drill; auto using canonical_wellFormed, canonical_clean.
Qed.

Lemma serve_config provider path w snapshot :
  path = "/api" ∨ path = "/api/providers" →
  currentConfigurations w = DynConfigs snapshot →
  serve provider (GET path) w
  = Returned tt (mkHState (logged [CallGet] w) (jsonResponse StatusOK (toJSON snapshot))).
Proof.
  intros Hp Hc. rewrite serve_clean by (by destruct Hp as [-> | ->]).
  unfold GET. rewrite dispatch_config by done.
  by apply getConfigHandler_snapshot.
Qed.

(** ** Claims on the PUT handler *)

(** C1, as stated, fails: with the read-only flag on, a PUT to
    /api/providers/file is answered 403, not 400. *)
Lemma put_wrong_target_read_only_is_403 :
  index {[ "provider" := "file" ]} "provider" ≠ "web"
  ∧ ReadOnly readOnly = true
  ∧ responseOf (serve readOnly (PUT "/api/providers/file" (mkBody "{}" None))
                  (sampleWorld (DynConfigs sampleSnapshot)))
    = forbiddenResponse
  ∧ status forbiddenResponse ≠ Some StatusBadRequest.
Proof.
  split; [by vm_compute|]. split; [reflexivity|]. split; [by vm_compute|].
  discriminate.
Qed.

Lemma putProviderHandler_refuses provider request w :
  ReadOnly provider = true ∨ index (mux_Vars request) "provider" ≠ "web" →
  putProviderHandler provider request (mkHState w emptyResponse)
  = Returned tt (mkHState w (if ReadOnly provider then forbiddenResponse
                             else wrongTargetResponse)).
Proof.
  intros H. unfold putProviderHandler. destruct (ReadOnly provider); [reflexivity|].
  destruct H as [? | H]; [discriminate|].
  by rewrite bool_decide_eq_true_2.
Qed.

(** C1, amended: a PUT to /api/providers/{provider} with an id other than
    "web" never sends on the configuration channel and leaves the whole
    process state as it was; it is answered 400 with the fixed text when
    the read-only flag is off, and 403 with the read-only text when the
    flag is on, the flag being tested first.  This is what the handler does
    with every request that carries such an id, and what the router answers
    for every such id that is a path segment in clean form (with the
    segment [.] or [..] the path is no request to this route: mux redirects
    it to its clean form before any handler runs). *)
Theorem put_wrong_target provider id body w :
  isId id = true →
  id ≠ "web" →
  serve provider (PUT ("/api/providers/" +:+ id) body) w
  = Returned tt (mkHState w (if ReadOnly provider then forbiddenResponse
                             else wrongTargetResponse))
  ∧ (∀ request, index (mux_Vars request) "provider" = id →
     putProviderHandler provider request (mkHState w emptyResponse)
     = Returned tt (mkHState w (if ReadOnly provider then forbiddenResponse
                                else wrongTargetResponse))).
Proof.
  intros Hid Hne. destruct (isId_inv id Hid) as [Hseg _]. split.
  - rewrite serve_clean by (by apply isId_clean). unfold PUT.
    rewrite dispatch_put by done. apply putProviderHandler_refuses. right.
    unfold mux_Vars, index. cbn [Vars]. by rewrite lookup_singleton_eq.
  - intros request Hr. apply putProviderHandler_refuses. right. by rewrite Hr.
Qed.

Lemma put_wrong_target_witness :
  isId "file" = true ∧ "file" ≠ "web"
  ∧ serve readWrite (PUT ("/api/providers/" +:+ "file") (mkBody "{}" None))
      (sampleWorld (DynConfigs sampleSnapshot))
    = Returned tt (mkHState (sampleWorld (DynConfigs sampleSnapshot))
                     (if ReadOnly readWrite then forbiddenResponse else wrongTargetResponse)).
Proof.
  split; [reflexivity|]. split; [discriminate|].
  refine (proj1 (put_wrong_target readWrite "file" _ _ _ _)); [reflexivity | discriminate].
Defined.

(** C2: with the read-only flag on, every PUT to /api/providers/{provider}
    is answered 403 with the text "REST API is in read-only mode" and the
    process state after the request is the state before it: the call log
    is the same (the body was not read, nothing was parsed, the store was
    not consulted), and so are the stored snapshot and the channel.  This
    is what the handler does with every request it is given, and what the
    router answers for every id that is a path segment in clean form (with
    the segment [.] or [..] the path is no request to this route: mux
    redirects it to its clean form before any handler runs). *)
Theorem put_read_only provider id body w :
  isId id = true →
  ReadOnly provider = true →
  serve provider (PUT ("/api/providers/" +:+ id) body) w
  = Returned tt (mkHState w forbiddenResponse)
  ∧ (∀ request,
     putProviderHandler provider request (mkHState w emptyResponse)
     = Returned tt (mkHState w forbiddenResponse)).
Proof.
  intros Hid Hro. destruct (isId_inv id Hid) as [Hseg _].
  assert (∀ request,
            putProviderHandler provider request (mkHState w emptyResponse)
            = Returned tt (mkHState w forbiddenResponse)) as H.
  { intros request. rewrite putProviderHandler_refuses by auto. by rewrite Hro. }
  split; [|exact H].
  rewrite serve_clean by (by apply isId_clean). unfold PUT.
  rewrite dispatch_put by done. apply H.
Qed.

Lemma put_read_only_witness :
  isId "web" = true ∧ ReadOnly readOnly = true
  ∧ serve readOnly (PUT ("/api/providers/" +:+ "web") (mkBody "{}" None))
      (sampleWorld (DynConfigs sampleSnapshot))
    = Returned tt (mkHState (sampleWorld (DynConfigs sampleSnapshot)) forbiddenResponse).
Proof.
  split; [reflexivity|]. split; [reflexivity|].
  refine (proj1 (put_read_only readOnly "web" _ _ _ _)); reflexivity.
Defined.

(** ** Claims on the drill-down handlers *)

Lemma resolve_provider_absent snapshot d :
  snapshot !! providerOf d = None → resolve snapshot d = None.
Proof. destruct d; cbn [providerOf resolve]; intros ->; reflexivity. Qed.

(** C3: on every snapshot, each of the nine drill-down requests is answered
    from the ids of its path resolved left to right: 404 (the not-found
    response, no part of the snapshot in it) when some id is absent from
    the mapping it is looked up in, in particular when the provider id is
    absent whatever the later ids are, and 200 with the JSON text of the
    entity the ids lead to when all of them resolve.  The ids are path
    segments in clean form (with an id [.] or [..] the path is no request
    to these routes: mux redirects it to its clean form before any handler
    runs). *)
Theorem drill_down_resolves provider d w snapshot :
  canonical d = true →
  currentConfigurations w = DynConfigs snapshot →
  serve provider (GET (pathOf d)) w
  = Returned tt (mkHState (logged [CallGet] w)
      match resolve snapshot d with
      | Some entity =>
          mkResponseWriter {[ "Content-Type" := "application/json; charset=UTF-8" ]}
            (Some StatusOK) (Encode.text entity)
      | None => notFoundResponse
      end)
  ∧ (snapshot !! providerOf d = None →
     responseOf (serve provider (GET (pathOf d)) w) = notFoundResponse).
Proof.
  intros Hd Hc. rewrite (serve_drill_canonical provider d w snapshot Hd Hc).
  split; [reflexivity|].
  intros Hp. cbn [responseOf response]. unfold drillResponse.
  by rewrite resolve_provider_absent.
Qed.

Lemma drill_down_resolves_witness :
  canonical (ToBackend "docker" "ghost") = true
  ∧ currentConfigurations (sampleWorld (DynConfigs sampleSnapshot)) = DynConfigs sampleSnapshot
  ∧ status (responseOf (serve readWrite (GET "/api/providers/docker/backends/ghost")
                          (sampleWorld (DynConfigs sampleSnapshot))))
    = Some StatusNotFound.
Proof.
  split; [reflexivity|]. split; [reflexivity|].
  destruct (drill_down_resolves readWrite (ToBackend "docker" "ghost")
              (sampleWorld (DynConfigs sampleSnapshot)) sampleSnapshot
              eq_refl eq_refl) as [H _].
  change (pathOf (ToBackend "docker" "ghost")) with "/api/providers/docker/backends/ghost" in H.
  rewrite H. reflexivity.
Defined.

(** C8: the answer to a drill-down request is a function of the snapshot
    and of the ids in the path alone.  Two requests for the same path give
    the same response, byte for byte, whenever the store holds the same
    snapshot, whatever else differs in the process and in the provider's
    options; in particular when the second request follows the first. *)
Theorem drill_down_deterministic provider provider' d w w' snapshot :
  wellFormed d = true →
  currentConfigurations w = DynConfigs snapshot →
  currentConfigurations w' = DynConfigs snapshot →
  written (responseOf (serve provider (GET (pathOf d)) w))
  = written (responseOf (serve provider' (GET (pathOf d)) w'))
  ∧ responseOf (serve provider (GET (pathOf d)) w)
    = responseOf (serve provider (GET (pathOf d))
                    (worldOf (serve provider (GET (pathOf d)) w))).
Proof.
  intros Hd Hc Hc'.
  destruct (decide (mux.cleanPath (pathOf d) = pathOf d)) as [Hp | Hp].
  - rewrite (serve_drill provider d w snapshot Hd Hp Hc).
    rewrite (serve_drill provider' d w' snapshot Hd Hp Hc').
    split; [reflexivity|].
    cbn [worldOf world]. by rewrite (serve_drill provider d (logged [CallGet] w) snapshot).
  - rewrite !serve_redirect by done. split; reflexivity.
Qed.

Lemma drill_down_deterministic_witness :
  wellFormed (ToServer "docker" "web-backend" "server1") = true
  ∧ written (responseOf (serve readWrite
               (GET (pathOf (ToServer "docker" "web-backend" "server1")))
               (sampleWorld (DynConfigs sampleSnapshot))))
    = written (responseOf (serve debugging
               (GET (pathOf (ToServer "docker" "web-backend" "server1")))
               (sent (mkConfigMessage "web" zeroConfiguration)
                  (sampleWorld (DynConfigs sampleSnapshot))))).
Proof.
  split; [reflexivity|].
  apply (drill_down_deterministic readWrite debugging
           (ToServer "docker" "web-backend" "server1")
           (sampleWorld (DynConfigs sampleSnapshot))
           (sent (mkConfigMessage "web" zeroConfiguration)
              (sampleWorld (DynConfigs sampleSnapshot)))
           sampleSnapshot); reflexivity.
Defined.

(** ** The write path *)

Lemma logged_logged a b w : logged b (logged a w) = logged (a ++ b) w.
Proof. unfold logged; cbn. by rewrite <- (assoc_L (++)). Qed.

(** The two ways a PUT to /api/providers/web ends when the read-only flag
    is off: by the error of [json.Unmarshal], or by a send followed by
    [getConfigHandler]. *)
Lemma put_web provider body w :
  ReadOnly provider = false →
  serve provider (PUT "/api/providers/web" body) w
  = match Decode.Unmarshal (bodyData body) zeroConfiguration with
    | (_, Some err) =>
        Returned tt
          (mkHState
             (logged [CallReadAll; CallUnmarshal;
                      CallLog ("Error parsing configuration " +:+ Decode.ErrorText err)] w)
             (errorResponse StatusBadRequest (Decode.ErrorText err)))
    | (configuration, None) =>
        getConfigHandler provider
          (mkRequest "PUT" "/api/providers/web" body {[ "provider" := "web" ]})
          (mkHState (logged [CallReadAll; CallUnmarshal]
                       (sent (mkConfigMessage "web" configuration) w))
             emptyResponse)
    end.
Proof.
  intros Hro. rewrite serve_clean by reflexivity. unfold PUT.
  rewrite (dispatch_put provider "web" body ∅ eq_refl).
  unfold putProviderHandler. rewrite Hro. cbn [mux_Vars Vars RequestBody].
  change (bool_decide (index {[ "provider" := "web" ]} "provider" ≠ "web")) with false.
  cbv iota. run.
  destruct (Decode.Unmarshal (bodyData body) zeroConfiguration) as [configuration [err|]];
    cbv iota beta; rewrite !logged_logged; reflexivity.
Qed.

Lemma getConfigHandler_world provider request w :
  worldOf (getConfigHandler provider request (mkHState w emptyResponse))
  = logged [CallGet] w.
Proof.
  unfold_handlers. run. cbn [currentConfigurations logged].
  destruct (currentConfigurations w); reflexivity.
Qed.

Lemma Unmarshal_ok_valid data c configuration :
  Decode.Unmarshal data c = (configuration, None) → Scanner.valid data = true.
Proof.
  unfold Decode.Unmarshal, Scanner.valid.
  destruct (Scanner.parse data); [discriminate | reflexivity].
Qed.

Lemma Unmarshal_invalid data c :
  Scanner.valid data = false →
  ∃ e, Decode.Unmarshal data c = (c, Some (Decode.Syntax e)).
Proof.
  unfold Decode.Unmarshal, Scanner.valid.
  destruct (Scanner.parse data) as [e|]; [eauto | discriminate].
Qed.

Lemma configurationField_unknown k v c :
  known k = false → Decode.configurationField k v c = (c, None).
Proof.
  unfold known, Decode.configurationField. intros [-> ->]%orb_false_elim. reflexivity.
Qed.

Lemma members_unknown kvs c :
  forallb (λ kv, negb (known kv.1)) kvs = true →
  Decode.members Decode.configurationField kvs c = (c, None).
Proof.
  induction kvs as [|[k v] kvs IH]; cbn; [done|].
  intros [Hk Hr]%andb_prop. apply negb_true_iff in Hk.
  rewrite configurationField_unknown by done. by rewrite IH.
Qed.

Lemma members_filter_known kvs c :
  Decode.members Decode.configurationField kvs c
  = Decode.members Decode.configurationField (filter (λ kv, known kv.1 = true) kvs) c.
Proof.
  revert c. induction kvs as [|[k v] kvs IH]; intros c; [done|].
  rewrite filter_cons. cbn [fst]. destruct (known k) eqn:Hk.
  - rewrite decide_True by done. cbn [Decode.members].
    destruct (Decode.configurationField k v c) as [c1 e1]. by rewrite IH.
  - rewrite decide_False by done. cbn [Decode.members].
    rewrite configurationField_unknown by done. rewrite IH.
    by destruct (Decode.members _ _ c).
Qed.

Lemma members_no_backends kvs c :
  forallb (λ kv, negb (Decode.names "backends" kv.1)) kvs = true →
  Backends (Decode.members Decode.configurationField kvs c).1 = Backends c.
Proof.
  revert c. induction kvs as [|[k v] kvs IH]; intros c; cbn; [done|].
  intros [Hk Hr]%andb_prop. apply negb_true_iff in Hk.
  unfold Decode.configurationField at 1. rewrite Hk.
  destruct (Decode.names "frontends" k).
  - unfold Decode.onField.
    destruct (Decode.intoMap _ _ _ v (Frontends c)) as [x e].
    specialize (IH (mkConfiguration (Backends c) x) Hr).
    destruct (Decode.members _ kvs _) as [c2 e2]. exact IH.
  - unfold Decode.skip. specialize (IH c Hr).
    destruct (Decode.members _ kvs _) as [c2 e2]. exact IH.
Qed.

Lemma members_no_frontends kvs c :
  forallb (λ kv, negb (Decode.names "frontends" kv.1)) kvs = true →
  Frontends (Decode.members Decode.configurationField kvs c).1 = Frontends c.
Proof.
  revert c. induction kvs as [|[k v] kvs IH]; intros c; cbn; [done|].
  intros [Hk Hr]%andb_prop. apply negb_true_iff in Hk.
  unfold Decode.configurationField at 1. rewrite Hk.
  destruct (Decode.names "backends" k).
  - unfold Decode.onField.
    destruct (Decode.intoMap _ _ _ v (Backends c)) as [x e].
    specialize (IH (mkConfiguration x (Frontends c)) Hr).
    destruct (Decode.members _ kvs _) as [c2 e2]. exact IH.
  - unfold Decode.skip. specialize (IH c Hr).
    destruct (Decode.members _ kvs _) as [c2 e2]. exact IH.
Qed.

(** C4, as stated, fails: the answer to a successful PUT to
    /api/providers/web is not the answer a GET of the same path gets.  On
    the sample snapshot, which has no provider "web", the PUT is answered
    200 with the whole snapshot and the GET of /api/providers/web 404. *)
Lemma put_web_is_not_get_same_path :
  Decode.Unmarshal "{}" zeroConfiguration = (zeroConfiguration, None)
  ∧ responseOf (serve readWrite (PUT "/api/providers/web" (mkBody "{}" None))
                  (sampleWorld (DynConfigs sampleSnapshot)))
    = jsonResponse StatusOK (toJSON sampleSnapshot)
  ∧ responseOf (serve readWrite (GET "/api/providers/web")
                  (sampleWorld (DynConfigs sampleSnapshot)))
    = notFoundResponse
  ∧ status (jsonResponse StatusOK (toJSON sampleSnapshot)) ≠ status notFoundResponse.
Proof.
  split; [by vm_compute|]. split; [by vm_compute|]. split; [by vm_compute|].
  discriminate.
Qed.

(** C4, amended: with the read-only flag off, a PUT to /api/providers/web
    whose body [json.Unmarshal] decodes without error puts exactly one
    message on the channel, tagged "web" and carrying the decoded
    configuration, and is then answered as a GET of /api/providers (the
    whole-snapshot handler) is: the store is read again, so the body of
    the answer is the stored snapshot, not the configuration submitted. *)
Theorem put_web_submits provider body w configuration :
  ReadOnly provider = false →
  Decode.Unmarshal (bodyData body) zeroConfiguration = (configuration, None) →
  configurationChan (worldOf (serve provider (PUT "/api/providers/web" body) w))
  = (configurationChan w ++ [mkConfigMessage "web" configuration])%list
  ∧ serve provider (PUT "/api/providers/web" body) w
    = serve provider (GET "/api/providers")
        (logged [CallReadAll; CallUnmarshal] (sent (mkConfigMessage "web" configuration) w))
  ∧ (∀ snapshot, currentConfigurations w = DynConfigs snapshot →
     responseOf (serve provider (PUT "/api/providers/web" body) w)
     = jsonResponse StatusOK (toJSON snapshot)).
Proof.
  intros Hro Hu. rewrite (put_web provider body w Hro), Hu.
  split; [by rewrite getConfigHandler_world|].
  split.
  - rewrite serve_clean by reflexivity. unfold GET. by rewrite dispatch_config by auto.
  - intros snapshot Hc.
    by rewrite (getConfigHandler_snapshot _ _ _ snapshot).
Qed.

Lemma put_web_submits_witness :
  ReadOnly readWrite = false
  ∧ Decode.Unmarshal "{}" zeroConfiguration = (zeroConfiguration, None)
  ∧ configurationChan
      (worldOf (serve readWrite (PUT "/api/providers/web" (mkBody "{}" None))
                  (sampleWorld (DynConfigs sampleSnapshot))))
    = [mkConfigMessage "web" zeroConfiguration].
Proof.
  split; [reflexivity|]. split; [by vm_compute|].
  apply (put_web_submits readWrite (mkBody "{}" None)
           (sampleWorld (DynConfigs sampleSnapshot)) zeroConfiguration);
    [reflexivity | by vm_compute].
Defined.

(** C5, as stated, fails: a body can be valid JSON and still be refused.
    The array [[]] is a JSON document; a PUT with it is answered 400 with
    the text of the decoder's error, and nothing is sent. *)
Lemma put_web_valid_json_refused :
  Scanner.valid "[]" = true
  ∧ serve readWrite (PUT "/api/providers/web" (mkBody "[]" None))
      (sampleWorld (DynConfigs sampleSnapshot))
    = Returned tt
        (mkHState
           (logged
              [CallReadAll; CallUnmarshal;
               CallLog ("Error parsing configuration json: cannot unmarshal array "
                        +:+ "into Go value of type types.Configuration")]
              (sampleWorld (DynConfigs sampleSnapshot)))
           (errorResponse StatusBadRequest
              "json: cannot unmarshal array into Go value of type types.Configuration")).
Proof. split; by vm_compute. Qed.

(** C5, amended: with the read-only flag off, a PUT to /api/providers/web
    is answered 400 exactly when [json.Unmarshal] returns an error; the
    body of the answer is then the text of that error as plain text and
    nothing is sent on the channel.  A body that is not valid JSON always
    gives such an error.  A JSON object is not refused for the members it
    lacks or for members that name no field: members that name no field
    are skipped, an object with no other members decodes to the
    configuration with empty mappings, and a mapping no member names stays
    empty. *)
Theorem put_web_malformed provider body w :
  ReadOnly provider = false →
  (status (responseOf (serve provider (PUT "/api/providers/web" body) w))
     = Some StatusBadRequest
   ↔ ∃ err, (Decode.Unmarshal (bodyData body) zeroConfiguration).2 = Some err)
  ∧ (∀ err, (Decode.Unmarshal (bodyData body) zeroConfiguration).2 = Some err →
     responseOf (serve provider (PUT "/api/providers/web" body) w)
     = errorResponse StatusBadRequest (Decode.ErrorText err)
     ∧ configurationChan (worldOf (serve provider (PUT "/api/providers/web" body) w))
       = configurationChan w)
  ∧ (Scanner.valid (bodyData body) = false →
     ∃ e, (Decode.Unmarshal (bodyData body) zeroConfiguration).2 = Some (Decode.Syntax e))
  ∧ (∀ members, Scanner.parse (bodyData body) = inr (JObject members) →
     Decode.Unmarshal (bodyData body) zeroConfiguration
     = Decode.members Decode.configurationField
         (filter (λ kv, known kv.1 = true) members) zeroConfiguration
     ∧ (forallb (λ kv, negb (known kv.1)) members = true →
        Decode.Unmarshal (bodyData body) zeroConfiguration = (zeroConfiguration, None))
     ∧ (forallb (λ kv, negb (Decode.names "backends" kv.1)) members = true →
        Backends (Decode.Unmarshal (bodyData body) zeroConfiguration).1 = ∅)
     ∧ (forallb (λ kv, negb (Decode.names "frontends" kv.1)) members = true →
        Frontends (Decode.Unmarshal (bodyData body) zeroConfiguration).1 = ∅)).
Proof.
  intros Hro. rewrite (put_web provider body w Hro).
  split; [|split; [|split]].
  - destruct (Decode.Unmarshal (bodyData body) zeroConfiguration) as [c [err|]];
      cbn [snd responseOf response].
    + split; [eauto | reflexivity].
    + split; [|by intros [? ?]].
      unfold_handlers. run. cbn [currentConfigurations logged sent].
      destruct (currentConfigurations w); cbn; discriminate.
  - intros err He.
    destruct (Decode.Unmarshal (bodyData body) zeroConfiguration) as [c e].
    cbn [snd] in He. subst e. split; reflexivity.
  - intros [e He]%(Unmarshal_invalid _ zeroConfiguration). exists e. by rewrite He.
  - intros members Hp. unfold Decode.Unmarshal. rewrite Hp.
    cbn [Decode.intoConfiguration Decode.intoStruct].
    split; [apply members_filter_known|].
    split; [apply members_unknown|].
    split; [apply members_no_backends | apply members_no_frontends].
Qed.

Lemma put_web_malformed_witness :
  ReadOnly readWrite = false
  ∧ (status (responseOf (serve readWrite (PUT "/api/providers/web" (mkBody "{" None))
                           (sampleWorld (DynConfigs sampleSnapshot))))
       = Some StatusBadRequest
     ↔ ∃ err, (Decode.Unmarshal "{" zeroConfiguration).2 = Some err).
Proof.
  split; [reflexivity|].
  apply (put_web_malformed readWrite (mkBody "{" None)
           (sampleWorld (DynConfigs sampleSnapshot)) eq_refl).
Defined.

(** C10: the error of reading the body is dropped.  A PUT to
    /api/providers/web whose body fails after the bytes [data] is served
    exactly as a PUT whose body is [data] and reads without error: when
    [json.Unmarshal] refuses [data] the answer is 400 with the decoder's
    error text and nothing is sent; when it accepts [data], which are then
    a valid JSON document, the configuration is submitted as usual and the
    answer is 200.  No other status is sent. *)
Theorem put_body_read_error provider data err w snapshot :
  ReadOnly provider = false →
  currentConfigurations w = DynConfigs snapshot →
  serve provider (PUT "/api/providers/web" (mkBody data (Some err))) w
  = serve provider (PUT "/api/providers/web" (mkBody data None)) w
  ∧ match Decode.Unmarshal data zeroConfiguration with
    | (_, Some e) =>
        responseOf (serve provider (PUT "/api/providers/web" (mkBody data (Some err))) w)
        = errorResponse StatusBadRequest (Decode.ErrorText e)
        ∧ configurationChan
            (worldOf (serve provider (PUT "/api/providers/web" (mkBody data (Some err))) w))
          = configurationChan w
    | (configuration, None) =>
        Scanner.valid data = true
        ∧ responseOf (serve provider (PUT "/api/providers/web" (mkBody data (Some err))) w)
          = jsonResponse StatusOK (toJSON snapshot)
        ∧ configurationChan
            (worldOf (serve provider (PUT "/api/providers/web" (mkBody data (Some err))) w))
          = (configurationChan w ++ [mkConfigMessage "web" configuration])%list
    end
  ∧ (status (responseOf
               (serve provider (PUT "/api/providers/web" (mkBody data (Some err))) w))
       = Some StatusBadRequest
     ∨ status (responseOf
                 (serve provider (PUT "/api/providers/web" (mkBody data (Some err))) w))
       = Some StatusOK).
Proof.
  intros Hro Hc. rewrite !(put_web provider _ w Hro). cbn [bodyData].
  destruct (Decode.Unmarshal data zeroConfiguration) as [configuration [e|]] eqn:Hu.
  - repeat split; try reflexivity. by left.
  - rewrite !(getConfigHandler_snapshot _ _ _ snapshot) by done.
    repeat split; try reflexivity.
    + by apply (Unmarshal_ok_valid data zeroConfiguration configuration).
    + by right.
Qed.

Lemma put_body_read_error_witness :
  ReadOnly readWrite = false
  ∧ currentConfigurations (sampleWorld (DynConfigs sampleSnapshot)) = DynConfigs sampleSnapshot
  ∧ serve readWrite (PUT "/api/providers/web" (mkBody "{" (Some "unexpected EOF")))
      (sampleWorld (DynConfigs sampleSnapshot))
    = serve readWrite (PUT "/api/providers/web" (mkBody "{" None))
        (sampleWorld (DynConfigs sampleSnapshot)).
Proof.
  split; [reflexivity|]. split; [reflexivity|].
  apply (put_body_read_error readWrite "{" "unexpected EOF"
           (sampleWorld (DynConfigs sampleSnapshot)) sampleSnapshot eq_refl eq_refl).
Defined.

(** ** The expvar dump *)







Lemma Publish_lookup name v vars vars' :
  Publish name v vars = Some vars' → vars' !! name = Some v.
Proof.
  unfold Publish. destruct (vars !! name); [discriminate|].
  intros [= <-]. apply lookup_insert_eq.
Qed.

Lemma sortedMembers_keys {A} (m : gmap string A) k :
  k ∈ (sortedMembers m).*1 ↔ is_Some (m !! k).
Proof.
  unfold sortedMembers. rewrite merge_sort_Permutation.
  rewrite list_elem_of_fmap. split.
  - intros [[k' x] [-> Hx]]. apply elem_of_map_to_list in Hx. by exists x.
  - intros [x Hx]. exists (k, x). split; [done|]. by apply elem_of_map_to_list.
Qed.

Lemma sortedMembers_NoDup {A} (m : gmap string A) : NoDup (sortedMembers m).*1.
Proof.
  unfold sortedMembers. rewrite merge_sort_Permutation. apply NoDup_fst_map_to_list.
Qed.

(** ** Reading the dump back *)

Module ScannerFacts.
Import Scanner.




















Lemma parse_Num1 lit : 
  step (mkMachine (Num1 lit) [] None) " " = inr (mkMachine EndValue [] (Some (JNumber lit))).
Proof. reflexivity. Qed.







End ScannerFacts.

(** ** What a request can change *)

Lemma logged_nil w : logged [] w = w.
Proof. destruct w. unfold logged. cbn. by rewrite app_nil_r. Qed.

Ltac quiet_api :=
  intros [w rw]; unfold_handlers; run; cbn [currentConfigurations logged];
  destruct (currentConfigurations w);
  repeat match goal with
  | |- context [ match ?m !! ?k with _ => _ end ] => destruct (m !! k)
  end;
  exists [CallGet]; reflexivity.

Lemma quiet_getConfigHandler p r : quiet (getConfigHandler p r).
Proof. quiet_api. Qed.
Lemma quiet_getProviderHandler p r : quiet (getProviderHandler p r).
Proof. quiet_api. Qed.
Lemma quiet_getBackendsHandler p r : quiet (getBackendsHandler p r).
Proof. quiet_api. Qed.
Lemma quiet_getBackendHandler p r : quiet (getBackendHandler p r).
Proof. quiet_api. Qed.
Lemma quiet_getServersHandler p r : quiet (getServersHandler p r).
Proof. quiet_api. Qed.
Lemma quiet_getServerHandler p r : quiet (getServerHandler p r).
Proof. quiet_api. Qed.
Lemma quiet_getFrontendsHandler p r : quiet (getFrontendsHandler p r).
Proof. quiet_api. Qed.
Lemma quiet_getFrontendHandler p r : quiet (getFrontendHandler p r).
Proof. quiet_api. Qed.
Lemma quiet_getRoutesHandler p r : quiet (getRoutesHandler p r).
Proof. quiet_api. Qed.
Lemma quiet_getRouteHandler p r : quiet (getRouteHandler p r).
Proof. quiet_api. Qed.

Ltac quiet_nothing := intros [w rw]; exists []; rewrite logged_nil; reflexivity.

Lemma quiet_getHealthHandler p r : quiet (getHealthHandler p r).
Proof. quiet_nothing. Qed.
Lemma quiet_NotFound : quiet http_NotFound.
Proof. quiet_nothing. Qed.
Lemma quiet_Redirect url code : quiet (http_Redirect url code).
Proof. quiet_nothing. Qed.
Lemma quiet_FileServer prefix r : quiet (StripPrefix_FileServer prefix r).
Proof.
  intros [w rw]. exists []. rewrite logged_nil. unfold StripPrefix_FileServer.
  destruct (String.prefix prefix (URLPath r)); reflexivity.
Qed.

Lemma Do_loop_world {S} (f : KeyValue → S → Handler S) kvs s st :
  (∀ kv s st, worldOf (f kv s st) = world st) →
  worldOf (Do_loop f kvs s st) = world st.
Proof.
  intros Hf. revert s st. induction kvs as [|[k v] kvs IH]; intros s st; [done|].
  cbn [Do_loop]. unfold mbind at 1, Handler_bind at 1.
  specialize (Hf (mkKeyValue k v) s st).
  destruct (f (mkKeyValue k v) s st) as [s' st'|st']; cbn [worldOf] in Hf.
  - by rewrite IH.
  - done.
Qed.

Lemma quiet_expvarHandler r : quiet (expvarHandler r).
Proof.
  intros [w rw]. exists []. rewrite logged_nil. unfold expvarHandler, expvar_Do.
  cbv [mbind Handler_bind mret Handler_ret readWorld onResponse Header_Set Write Fprintf
       world response].
  match goal with |- worldOf (match Do_loop ?f ?kvs ?s ?st with _ => _ end) = _ =>
    pose proof (Do_loop_world f kvs s st) as H;
    destruct (Do_loop f kvs s st) as [s' st'|st'] end.
  - cbn [worldOf world] in *. apply H. intros kv s0 [w0 r0]. unfold Fprintf_q_s.
    destruct s0; reflexivity.
  - cbn [worldOf] in *. apply H. intros kv s0 [w0 r0]. unfold Fprintf_q_s.
    destruct s0; reflexivity.
Qed.

(** The PUT handler makes calls and sends at most one message, tagged "web". *)
Lemma putProviderHandler_effect p r st :
  ∃ cs, worldOf (putProviderHandler p r st) = logged cs (world st)
        ∨ ∃ configuration,
            worldOf (putProviderHandler p r st)
            = logged cs (sent (mkConfigMessage "web" configuration) (world st)).
Proof.
  destruct st as [w rw]. unfold putProviderHandler.
  destruct (ReadOnly p); [exists []; left; by rewrite logged_nil|].
  case_bool_decide; [exists []; left; by rewrite logged_nil|].
  unfold_handlers. run.
  destruct (Decode.Unmarshal (bodyData (RequestBody r)) zeroConfiguration)
    as [configuration [err|]]; cbv iota beta.
  - eexists. left. cbn [worldOf world]. rewrite !logged_logged. reflexivity.
  - exists [CallReadAll; CallUnmarshal; CallGet]. right. exists configuration.
    cbn [currentConfigurations logged sent].
    destruct (currentConfigurations w); cbn [worldOf world]; unfold logged, sent; cbn;
      by rewrite <- !(assoc_L (++)).
Qed.

Lemma Match_elem router request r vars :
  mux.Match router request = Some (r, vars) →
  r ∈ router ∧ mux.Methods r = Method request.
Proof.
  induction router as [|r' router IH]; [discriminate|]. cbn [mux.Match].
  destruct (mux.matches request r') as [vars'|] eqn:Hm.
  - intros [= <- <-]. split; [apply elem_of_cons; by left|].
    unfold mux.matches in Hm. by case_bool_decide.
  - intros [Hin ?]%IH. split; [apply elem_of_cons; by right | done].
Qed.

(** Whatever the request, serving it makes calls and, for a PUT only,
    may send one message tagged "web". *)
Lemma serve_effect provider request w :
  ∃ cs, worldOf (serve provider request w) = logged cs w
        ∨ (Method request = "PUT"
           ∧ ∃ configuration,
               worldOf (serve provider request w)
               = logged cs (sent (mkConfigMessage "web" configuration) w)).
Proof.
  destruct (decide (mux.cleanPath (URLPath request) = URLPath request)) as [Hp | Hp];
    [|rewrite serve_redirect by done; exists []; left; cbn [worldOf world];
      by rewrite logged_nil].
  rewrite serve_clean by done. unfold mux.handle.
  destruct (mux.Match (Provide provider) request) as [[r vars]|] eqn:HM.
  - apply Match_elem in HM as [Hin Hm]. unfold Provide in Hin.
    assert (∀ h : Handler unit, quiet h →
              ∃ cs, worldOf (h (mkHState w emptyResponse)) = logged cs w
                    ∨ (Method request = "PUT"
                       ∧ ∃ configuration,
                           worldOf (h (mkHState w emptyResponse))
                           = logged cs (sent (mkConfigMessage "web" configuration) w)))
      as Hq.
    { intros h Hh. destruct (Hh (mkHState w emptyResponse)) as [cs Hcs]. eauto. }
    destruct (Debug provider);
      [apply elem_of_app in Hin as [Hin | ->%list_elem_of_singleton]|];
      try (repeat (apply elem_of_cons in Hin as [-> | Hin]); cbn [mux.HandlerFunc];
           [..| by apply elem_of_nil in Hin]).
    all: first
      [ apply Hq;
        first [ apply quiet_getConfigHandler | apply quiet_getProviderHandler
              | apply quiet_getBackendsHandler | apply quiet_getBackendHandler
              | apply quiet_getServersHandler | apply quiet_getServerHandler
              | apply quiet_getFrontendsHandler | apply quiet_getFrontendHandler
              | apply quiet_getRoutesHandler | apply quiet_getRouteHandler
              | apply quiet_getHealthHandler | apply quiet_Redirect
              | apply quiet_FileServer | apply quiet_expvarHandler ]
      | idtac ].
    all: cbn [mux.Methods] in Hm;
      destruct (putProviderHandler_effect provider (mux.setVars request vars)
                  (mkHState w emptyResponse)) as [cs [H | H]];
      exists cs; [left | right]; auto.
  - destruct (quiet_NotFound (mkHState w emptyResponse)) as [cs Hcs]. eauto.
Qed.

(** C7: serving a request never writes the snapshot store.  Whatever the
    request, the stored value after it is the stored value before it, and
    so are the exported variables, the runtime, the metrics and the
    assets; the channel is as before or, for a PUT only, longer by one
    message tagged "web".  In particular every GET leaves store and
    channel untouched. *)
Theorem handlers_never_write_store provider request w :
  currentConfigurations (worldOf (serve provider request w)) = currentConfigurations w
  ∧ (configurationChan (worldOf (serve provider request w)) = configurationChan w
     ∨ (Method request = "PUT"
        ∧ ∃ configuration,
            configurationChan (worldOf (serve provider request w))
            = (configurationChan w ++ [mkConfigMessage "web" configuration])%list))
  ∧ expvars (worldOf (serve provider request w)) = expvars w
  ∧ runtime (worldOf (serve provider request w)) = runtime w
  ∧ metricsData (worldOf (serve provider request w)) = metricsData w
  ∧ assets (worldOf (serve provider request w)) = assets w.
Proof.
  destruct (serve_effect provider request w) as [cs [-> | [Hm [configuration ->]]]].
  - repeat split; auto.
  - repeat split; eauto.
Qed.

Lemma Reachable_configs provider w :
  Reachable provider w → ∃ snapshot, currentConfigurations w = DynConfigs snapshot.
Proof.
  induction 1 as [vars0 w _ Hw | w w' _ [snapshot IH] Hstep].
  - by exists ∅.
  - destruct Hstep as [snapshot' w | m rest w _ | rt metrics w | request w].
    + by exists snapshot'.
    + by exists snapshot.
    + by exists snapshot.
    + exists snapshot. rewrite <- IH.
      destruct (serve_effect provider request w) as [cs [-> | [_ [c ->]]]]; reflexivity.
Qed.







Lemma serve_api provider a w snapshot :
  apiWellFormed a = true →
  mux.cleanPath (apiPath a) = apiPath a →
  currentConfigurations w = DynConfigs snapshot →
  serve provider (GET (apiPath a)) w
  = Returned tt (mkHState (logged [CallGet] w) (apiResponse snapshot a)).
Proof.
  intros Ha Hp Hc. destruct a as [[]|d]; cbn [apiPath apiResponse].
  - apply serve_config; auto.
  - apply serve_config; auto.
  - by apply serve_drill.
Qed.

Lemma apiCanonical_inv a :
  apiCanonical a = true →
  apiWellFormed a = true ∧ mux.cleanPath (apiPath a) = apiPath a.
Proof.
  destruct a as [[]|d]; cbn [apiCanonical apiWellFormed apiPath];
    [done | done |].
  intros Hd. auto using canonical_wellFormed, canonical_clean.
Qed.

(** C6: in every state the process can reach, starting with the empty
    snapshot in the store, each GET handler that serves configuration,
    that is GET /api, GET /api/providers and the nine drill-down routes,
    calls [Get] exactly once, the assertion of the value to [configs]
    succeeds (the handler returns, it does not panic), and the answer is
    computed from that one snapshot; so it is in the state before the
    first install, where the snapshot is empty.  For the handlers
    themselves, whatever the state: a stored snapshot is all they need. *)
Theorem api_get_loads_once provider w a :
  Reachable provider w →
  apiCanonical a = true →
  (∃ snapshot,
     currentConfigurations w = DynConfigs snapshot
     ∧ serve provider (GET (apiPath a)) w
       = Returned tt (mkHState (logged [CallGet] w) (apiResponse snapshot a)))
  ∧ calls (worldOf (serve provider (GET (apiPath a)) w)) = (calls w ++ [CallGet])%list
  ∧ (∀ w0, currentConfigurations w0 = emptyStore →
     serve provider (GET (apiPath a)) w0
     = Returned tt (mkHState (logged [CallGet] w0) (apiResponse ∅ a)))
  ∧ (∀ w' snapshot, currentConfigurations w' = DynConfigs snapshot →
     serve provider (GET (apiPath a)) w'
     = Returned tt (mkHState (logged [CallGet] w') (apiResponse snapshot a))).
Proof.
  intros [snapshot Hc]%Reachable_configs [Ha Hp]%apiCanonical_inv.
  rewrite (serve_api provider a w snapshot Ha Hp Hc).
  split; [by exists snapshot|]. split; [reflexivity|]. split.
  - intros w0 Hw0. by apply serve_api.
  - intros w' snapshot' Hw'. by apply serve_api.
Qed.

Lemma api_get_loads_once_witness :
  Reachable readWrite (Store sampleSnapshot (sampleWorld emptyStore))
  ∧ apiCanonical (Drill (ToRoute "docker" "web-frontend" "host")) = true
  ∧ calls (worldOf (serve readWrite
                      (GET (apiPath (Drill (ToRoute "docker" "web-frontend" "host"))))
                      (Store sampleSnapshot (sampleWorld emptyStore))))
    = [CallGet].
Proof.
  assert (Reachable readWrite (Store sampleSnapshot (sampleWorld emptyStore))) as H.
  { apply (ReachStep _ (sampleWorld emptyStore)); [|apply StepStore].
    by apply (ReachStart _ ∅). }
  split; [exact H|]. split; [reflexivity|].
  apply (api_get_loads_once readWrite (Store sampleSnapshot (sampleWorld emptyStore))
           (Drill (ToRoute "docker" "web-frontend" "host")) H eq_refl).
Defined.

(** ** Further properties of the handlers *)

Lemma serve_api_foreign provider a w :
  apiWellFormed a = true →
  mux.cleanPath (apiPath a) = apiPath a →
  holdsConfigs (currentConfigurations w) = false →
  serve provider (GET (apiPath a)) w
  = Panicked (mkHState (logged [CallGet] w) emptyResponse).
Proof.
  intros Ha Hp Hc. rewrite serve_clean by done. unfold GET.
  destruct a as [[]|d]; cbn [apiPath].
  - rewrite dispatch_config by auto. unfold_handlers. run.
    cbn [currentConfigurations logged]. by destruct (currentConfigurations w).
  - rewrite dispatch_config by auto. unfold_handlers. run.
    cbn [currentConfigurations logged]. by destruct (currentConfigurations w).
  - rewrite dispatch_drill by done.
    destruct d; cbn [handlerOf]; unfold_handlers; run;
      cbn [currentConfigurations logged]; by destruct (currentConfigurations w).
Qed.

(** X1: GET /api and GET /api/providers are served by the same handler
    and get the same outcome in every state; when the store holds a
    snapshot it is 200 with the JSON text of the whole snapshot after one
    [Get], and the empty snapshot of a fresh store is written as the empty
    object. *)
Theorem whole_snapshot_both_paths provider w :
  serve provider (GET "/api") w = serve provider (GET "/api/providers") w
  ∧ (∀ snapshot, currentConfigurations w = DynConfigs snapshot →
     serve provider (GET "/api") w
     = Returned tt
         (mkHState (logged [CallGet] w)
            (mkResponseWriter {[ "Content-Type" := "application/json; charset=UTF-8" ]}
               (Some StatusOK) (Marshal_text snapshot))))
  ∧ (currentConfigurations w = emptyStore →
     written (responseOf (serve provider (GET "/api") w)) = "{}").
Proof.
  split; [|split].
  - rewrite !serve_clean by reflexivity. unfold GET. by rewrite !dispatch_config by auto.
  - intros snapshot Hc. by apply serve_config; auto.
  - intros Hc. by rewrite (serve_config provider "/api" w ∅) by auto.
Qed.

(** X2: when the value in the store is not of type [configs], every GET
    under /api whose ids are path segments in clean form (none of them
    [.] or [..], which mux redirects) panics in the type assertion, right
    after its single call of [Get]: no status and no byte were written,
    and nothing but the call log has changed. *)
Theorem api_get_panics_on_foreign_store provider a w :
  apiCanonical a = true →
  holdsConfigs (currentConfigurations w) = false →
  serve provider (GET (apiPath a)) w
  = Panicked (mkHState (logged [CallGet] w) emptyResponse).
Proof. intros [Ha Hp]%apiCanonical_inv. by apply serve_api_foreign. Qed.

Lemma api_get_panics_on_foreign_store_witness :
  apiCanonical (Drill (ToBackends "docker")) = true
  ∧ holdsConfigs (currentConfigurations (sampleWorld DynNil)) = false
  ∧ serve readWrite (GET (apiPath (Drill (ToBackends "docker")))) (sampleWorld DynNil)
    = Panicked (mkHState (logged [CallGet] (sampleWorld DynNil)) emptyResponse).
Proof.
  split; [reflexivity|]. split; [reflexivity|].
  apply (api_get_panics_on_foreign_store readWrite (Drill (ToBackends "docker"))
           (sampleWorld DynNil)); reflexivity.
Defined.

(** X3: the PUT handler sends before it reads the store.  When the
    stored value is not of type [configs], a PUT to /api/providers/web
    whose body decodes still puts its message on the channel; the handler
    then panics in [getConfigHandler] without having written a response,
    and the message stays sent. *)
Theorem put_web_sends_before_reading_store provider body w configuration :
  ReadOnly provider = false →
  Decode.Unmarshal (bodyData body) zeroConfiguration = (configuration, None) →
  holdsConfigs (currentConfigurations w) = false →
  serve provider (PUT "/api/providers/web" body) w
  = Panicked
      (mkHState
         (logged [CallReadAll; CallUnmarshal; CallGet]
            (sent (mkConfigMessage "web" configuration) w))
         emptyResponse).
Proof.
  intros Hro Hu Hc. rewrite (put_web provider body w Hro), Hu.
  unfold_handlers. run. cbn [currentConfigurations logged sent].
  destruct (currentConfigurations w); try discriminate;
    unfold logged, sent; cbn; by rewrite <- !(assoc_L (++)).
Qed.

Lemma put_web_sends_before_reading_store_witness :
  ReadOnly readWrite = false
  ∧ Decode.Unmarshal "{}" zeroConfiguration = (zeroConfiguration, None)
  ∧ holdsConfigs (currentConfigurations (sampleWorld DynNil)) = false
  ∧ configurationChan
      (worldOf (serve readWrite (PUT "/api/providers/web" (mkBody "{}" None))
                  (sampleWorld DynNil)))
    = [mkConfigMessage "web" zeroConfiguration].
Proof.
  split; [reflexivity|]. split; [by vm_compute|]. split; [reflexivity|].
  rewrite (put_web_sends_before_reading_store readWrite (mkBody "{}" None)
             (sampleWorld DynNil) zeroConfiguration eq_refl);
    [reflexivity | by vm_compute | reflexivity].
Defined.

(** X4: GET /health is answered 200 with the JSON text of the metrics
    data whatever the store holds and whatever the provider's options are,
    and leaves the process state, call log included, as it was. *)
Theorem health_answers_metrics provider w :
  serve provider (GET "/health") w
  = Returned tt
      (mkHState w
         (mkResponseWriter {[ "Content-Type" := "application/json; charset=UTF-8" ]}
            (Some StatusOK) (Encode.text (metricsData w)))).
Proof. rewrite serve_clean by reflexivity. unfold GET. rewrite dispatch_health. reflexivity. Qed.

(** X5: GET / is answered 302 with the header Location set to
    /dashboard/, and leaves the process state as it was. *)
Theorem root_redirects_to_dashboard provider w :
  ∃ body,
    serve provider (GET "/") w
    = Returned tt
        (mkHState w
           (mkResponseWriter
              (<[ "Content-Type" := "text/html; charset=utf-8" ]>
                 {[ "Location" := "/dashboard/" ]})
              (Some 302) body)).
Proof.
  eexists. rewrite serve_clean by reflexivity. unfold GET, mux.handle, Provide.
  destruct (Debug provider); reflexivity.
Qed.

Lemma parent_canonical d d' :
  parent d = Some d' → canonical d = true → canonical d' = true.
Proof.
  unfold canonical.
  destruct d; cbn [parent idsOf forallb]; intros [= <-]; cbn [idsOf forallb]; intros H;
    repeat match goal with H : _ && _ = true |- _ => apply andb_prop in H as [? ?] end;
    repeat match goal with H : isId _ = true |- _ => rewrite H; clear H end;
    reflexivity.
Qed.

Lemma resolve_parent snapshot d d' :
  parent d = Some d' → is_Some (resolve snapshot d) → is_Some (resolve snapshot d').
Proof.
  destruct d; cbn [parent]; intros [= <-]; cbn [resolve];
    repeat (match goal with |- context [ ?m !! ?k ] => destruct (m !! k) end;
            cbn [mbind option_bind]);
    intros [? ?]; try discriminate; eauto.
Qed.

Lemma drillResponse_status snapshot d :
  status (drillResponse snapshot d)
  = Some (match resolve snapshot d with Some _ => StatusOK | None => StatusNotFound end).
Proof. unfold drillResponse. by destruct (resolve snapshot d). Qed.

(** X6: a drill-down request that is answered 200 has its parent request
    (the listing of an entity, the owner of a listing) answered 200 as
    well; read the other way, a 404 is inherited by every request further
    down the same path.  The ids are path segments in clean form (none of
    them [.] or [..], which mux redirects). *)
Theorem drill_down_parent provider d d' w snapshot :
  canonical d = true →
  currentConfigurations w = DynConfigs snapshot →
  parent d = Some d' →
  (status (responseOf (serve provider (GET (pathOf d)) w)) = Some StatusOK →
   status (responseOf (serve provider (GET (pathOf d')) w)) = Some StatusOK)
  ∧ (status (responseOf (serve provider (GET (pathOf d')) w)) = Some StatusNotFound →
     status (responseOf (serve provider (GET (pathOf d)) w)) = Some StatusNotFound).
Proof.
  intros Hd Hc Hp. pose proof (parent_canonical d d' Hp Hd) as Hd'.
  rewrite (serve_drill_canonical provider d w snapshot Hd Hc).
  rewrite (serve_drill_canonical provider d' w snapshot Hd' Hc).
  cbn [responseOf response]. rewrite !drillResponse_status.
  pose proof (resolve_parent snapshot d d' Hp) as H.
  destruct (resolve snapshot d) as [j|], (resolve snapshot d') as [j'|];
    split; try done.
  - destruct H as [? ?]; [by eexists | discriminate].
  - destruct H as [? ?]; [by eexists | discriminate].
Qed.

Lemma drill_down_parent_witness :
  canonical (ToServer "docker" "ghost" "server1") = true
  ∧ currentConfigurations (sampleWorld (DynConfigs sampleSnapshot)) = DynConfigs sampleSnapshot
  ∧ parent (ToServer "docker" "ghost" "server1") = Some (ToServers "docker" "ghost")
  ∧ (status (responseOf (serve readWrite (GET (pathOf (ToServers "docker" "ghost")))
                           (sampleWorld (DynConfigs sampleSnapshot))))
       = Some StatusNotFound →
     status (responseOf (serve readWrite (GET (pathOf (ToServer "docker" "ghost" "server1")))
                           (sampleWorld (DynConfigs sampleSnapshot))))
       = Some StatusNotFound).
Proof.
  split; [reflexivity|]. split; [reflexivity|]. split; [reflexivity|].
  apply (drill_down_parent readWrite (ToServer "docker" "ghost" "server1")
           (ToServers "docker" "ghost") (sampleWorld (DynConfigs sampleSnapshot))
           sampleSnapshot eq_refl eq_refl eq_refl).
Defined.

Lemma find_key_Some {B} (l : list (string * B)) k v :
  NoDup l.*1 → (k, v) ∈ l →
  List.find (λ kv, bool_decide (kv.1 = k)) l = Some (k, v).
Proof.
  induction l as [|[k' v'] l IH]; intros Hnd Hin; [by apply elem_of_nil in Hin|].
  cbn [List.find fst]. apply NoDup_cons in Hnd as [Hk' Hnd].
  apply elem_of_cons in Hin as [[= <- <-] | Hin].
  - by rewrite bool_decide_eq_true_2.
  - rewrite bool_decide_eq_false_2; [by apply IH|].
    intros ->. apply Hk'. apply list_elem_of_fmap. by exists (k, v).
Qed.

Lemma find_key_None {B} (l : list (string * B)) k :
  k ∉ l.*1 → List.find (λ kv, bool_decide (kv.1 = k)) l = None.
Proof.
  induction l as [|[k' v'] l IH]; intros Hk; [done|].
  cbn [List.find fst]. rewrite bool_decide_eq_false_2.
  - apply IH. intros H. apply Hk. cbn. apply elem_of_cons. by right.
  - intros ->. apply Hk. cbn. apply elem_of_cons. by left.
Qed.

Lemma JSON_member_map {A} `{Marshal A} (m : gmap string A) k :
  JSON_member k (toJSON m) = toJSON <$> m !! k.
Proof.
  unfold toJSON at 1, marshal_map, JSON_member.
  set (l := map _ (sortedMembers m)).
  assert (l.*1 = (sortedMembers m).*1) as Hkeys.
  { unfold l. rewrite <- !list_fmap_compose. by apply list_fmap_ext. }
  destruct (m !! k) as [x|] eqn:Hx; cbn [fmap option_fmap option_map].
  - rewrite (find_key_Some l k (toJSON x)); [done | |].
    + rewrite Hkeys. apply sortedMembers_NoDup.
    + unfold l. apply (list_elem_of_fmap_2' _ _ (k, x)); [|done].
      unfold sortedMembers. rewrite merge_sort_Permutation.
      by apply elem_of_map_to_list.
  - rewrite find_key_None; [done|]. rewrite Hkeys.
    intros [x' Hx']%sortedMembers_keys. congruence.
Qed.

(** X7: the four entity routes (backend, server, frontend, route) agree
    with their listing routes: the entity request is answered with the
    member that the JSON object of the listing has under the entity's id,
    and with 404 when the listing is 404 or has no such member.  The
    members are those of the JSON values the two handlers pass to the
    encoder; the ids are path segments in clean form (none of them [.] or
    [..], which mux redirects). *)
Theorem entity_is_member_of_listing provider d l id w snapshot :
  canonical d = true →
  currentConfigurations w = DynConfigs snapshot →
  listingOf d = Some (l, id) →
  responseOf (serve provider (GET (pathOf d)) w)
  = match resolve snapshot l ≫= JSON_member id with
    | Some entity => jsonResponse StatusOK entity
    | None => notFoundResponse
    end.
Proof.
  intros Hd Hc Hl. rewrite (serve_drill_canonical provider d w snapshot Hd Hc).
  cbn [responseOf response]. unfold drillResponse.
  destruct d; cbn [listingOf] in Hl; try discriminate; injection Hl as <- <-;
    cbn [resolve];
    repeat (match goal with |- context [ ?m !! ?k ] => destruct (m !! k) eqn:? end;
            cbn [mbind option_bind]);
    rewrite ?JSON_member_map;
    repeat match goal with H : _ !! _ = _ |- _ => rewrite H end; reflexivity.
Qed.

Lemma entity_is_member_of_listing_witness :
  canonical (ToServer "docker" "web-backend" "server1") = true
  ∧ currentConfigurations (sampleWorld (DynConfigs sampleSnapshot)) = DynConfigs sampleSnapshot
  ∧ listingOf (ToServer "docker" "web-backend" "server1")
    = Some (ToServers "docker" "web-backend", "server1")
  ∧ responseOf (serve readWrite (GET (pathOf (ToServer "docker" "web-backend" "server1")))
                  (sampleWorld (DynConfigs sampleSnapshot)))
    = match resolve sampleSnapshot (ToServers "docker" "web-backend")
            ≫= JSON_member "server1" with
      | Some entity => jsonResponse StatusOK entity
      | None => notFoundResponse
      end.
Proof.
  split; [reflexivity|]. split; [reflexivity|]. split; [reflexivity|].
  apply (entity_is_member_of_listing readWrite (ToServer "docker" "web-backend" "server1")
           (ToServers "docker" "web-backend") "server1"
           (sampleWorld (DynConfigs sampleSnapshot)) sampleSnapshot eq_refl eq_refl eq_refl).
Defined.

(** X8: GET /api/providers/{provider} is answered with the member that
    the JSON object of GET /api/providers has under the provider id, and
    with 404 when there is no such member.  The id is a path segment in
    clean form (not [.] or [..], which mux redirects). *)
Theorem provider_is_member_of_snapshot provider p w snapshot :
  isId p = true →
  currentConfigurations w = DynConfigs snapshot →
  responseOf (serve provider (GET ("/api/providers/" +:+ p)) w)
  = match JSON_member p (toJSON snapshot) with
    | Some entity => jsonResponse StatusOK entity
    | None => notFoundResponse
    end
  ∧ responseOf (serve provider (GET "/api/providers") w)
    = jsonResponse StatusOK (toJSON snapshot).
Proof.
  intros Hp Hc. split.
  - assert (canonical (ToProvider p) = true) as Hd by (unfold canonical; cbn; by rewrite Hp).
    pose proof (serve_drill_canonical provider (ToProvider p) w snapshot Hd Hc) as H.
    cbn [pathOf] in H. rewrite H. cbn [responseOf response].
    unfold drillResponse. cbn [resolve]. rewrite JSON_member_map.
    by destruct (snapshot !! p).
  - by rewrite (serve_config provider "/api/providers" w snapshot) by auto.
Qed.

Lemma provider_is_member_of_snapshot_witness :
  isId "docker" = true
  ∧ currentConfigurations (sampleWorld (DynConfigs sampleSnapshot)) = DynConfigs sampleSnapshot
  ∧ responseOf (serve readWrite (GET ("/api/providers/" +:+ "docker"))
                  (sampleWorld (DynConfigs sampleSnapshot)))
    = match JSON_member "docker" (toJSON sampleSnapshot) with
      | Some entity => jsonResponse StatusOK entity
      | None => notFoundResponse
      end.
Proof.
  split; [reflexivity|]. split; [reflexivity|].
  apply (provider_is_member_of_snapshot readWrite "docker"
           (sampleWorld (DynConfigs sampleSnapshot)) sampleSnapshot eq_refl eq_refl).
Defined.

(** X9: when [json.Unmarshal] refuses the body of a PUT to
    /api/providers/web, the handler reads the body once, decodes once and
    logs one line, "Error parsing configuration " followed by the error
    text; the same text and a newline are the body of the answer, sent as
    text/plain.  The store is not consulted. *)
Theorem put_web_error_is_logged provider body w err :
  ReadOnly provider = false →
  (Decode.Unmarshal (bodyData body) zeroConfiguration).2 = Some err →
  calls (worldOf (serve provider (PUT "/api/providers/web" body) w))
  = (calls w ++ [CallReadAll; CallUnmarshal;
                 CallLog ("Error parsing configuration " +:+ Decode.ErrorText err)])%list
  ∧ written (responseOf (serve provider (PUT "/api/providers/web" body) w))
    = Decode.ErrorText err +:+ nl
  ∧ Header (responseOf (serve provider (PUT "/api/providers/web" body) w))
      !! "Content-Type" = Some "text/plain; charset=utf-8".
Proof.
  intros Hro He. rewrite (put_web provider body w Hro).
  destruct (Decode.Unmarshal (bodyData body) zeroConfiguration) as [c e].
  cbn [snd] in He. subst e. repeat split.
Qed.

Lemma put_web_error_is_logged_witness :
  ReadOnly readWrite = false
  ∧ (Decode.Unmarshal "{" zeroConfiguration).2
    = Some (Decode.Syntax Scanner.UnexpectedEnd)
  ∧ calls (worldOf (serve readWrite (PUT "/api/providers/web" (mkBody "{" None))
                      (sampleWorld (DynConfigs sampleSnapshot))))
    = [CallReadAll; CallUnmarshal;
       CallLog "Error parsing configuration unexpected end of JSON input"].
Proof.
  split; [reflexivity|]. split; [by vm_compute|].
  apply (put_web_error_is_logged readWrite (mkBody "{" None)
           (sampleWorld (DynConfigs sampleSnapshot))
           (Decode.Syntax Scanner.UnexpectedEnd) eq_refl).
  by vm_compute.
Defined.

Lemma serve_api_store provider provider' a w w' :
  apiWellFormed a = true →
  currentConfigurations w = currentConfigurations w' →
  responseOf (serve provider (GET (apiPath a)) w)
  = responseOf (serve provider' (GET (apiPath a)) w').
Proof.
  intros Ha Hc.
  destruct (decide (mux.cleanPath (apiPath a) = apiPath a)) as [Hp | Hp];
    [|by rewrite !serve_redirect by done].
  destruct (currentConfigurations w') as [|snapshot|t] eqn:Hw'.
  - by rewrite !serve_api_foreign by (by rewrite ?Hc, ?Hw').
  - by rewrite (serve_api provider a w snapshot), (serve_api provider' a w' snapshot).
  - by rewrite !serve_api_foreign by (by rewrite ?Hc, ?Hw').
Qed.

(** X10: serving a request, of any method and path, a PUT that submits
    a configuration included, does not change what a GET under /api is
    answered afterwards; only an install into the store does. *)
Theorem requests_do_not_change_answers provider request a w :
  apiWellFormed a = true →
  responseOf (serve provider (GET (apiPath a)) (worldOf (serve provider request w)))
  = responseOf (serve provider (GET (apiPath a)) w).
Proof.
  intros Ha. apply serve_api_store; [done|].
  by destruct (serve_effect provider request w) as [cs [-> | [_ [c ->]]]].
Qed.

Lemma requests_do_not_change_answers_witness :
  apiWellFormed (Drill (ToProvider "web")) = true
  ∧ responseOf (serve readWrite (GET (apiPath (Drill (ToProvider "web"))))
                  (worldOf (serve readWrite (PUT "/api/providers/web" (mkBody "{}" None))
                              (sampleWorld (DynConfigs sampleSnapshot)))))
    = responseOf (serve readWrite (GET (apiPath (Drill (ToProvider "web"))))
                    (sampleWorld (DynConfigs sampleSnapshot))).
Proof.
  split; [reflexivity|].
  apply (requests_do_not_change_answers readWrite
           (PUT "/api/providers/web" (mkBody "{}" None)) (Drill (ToProvider "web"))
           (sampleWorld (DynConfigs sampleSnapshot)) eq_refl).
Defined.

Lemma snoc_ne {A} (l : list A) x : (l ++ [x])%list ≠ l.
Proof. intros H. apply (f_equal length) in H. rewrite length_app in H. cbn in H. lia. Qed.

Lemma put_refused provider id body w :
  isSegment id = true →
  mux.cleanPath ("/api/providers/" +:+ id) = "/api/providers/" +:+ id →
  ReadOnly provider = true ∨ id ≠ "web" →
  serve provider (PUT ("/api/providers/" +:+ id) body) w
  = Returned tt (mkHState w (if ReadOnly provider then forbiddenResponse
                             else wrongTargetResponse)).
Proof.
  intros Hid Hp Hr. rewrite serve_clean by done. unfold PUT.
  rewrite dispatch_put by done. apply putProviderHandler_refuses.
  destruct Hr as [? | Hne]; [by left | right].
  unfold mux_Vars, index. cbn [Vars]. by rewrite lookup_singleton_eq.
Qed.

(** X11: a PUT to /api/providers/{provider} changes the channel exactly
    when the read-only flag is off, the id is "web" and [json.Unmarshal]
    returns no error; the change is then one message, tagged "web",
    carrying the decoded configuration, at the end of the queue. *)
Theorem put_sends_exactly_when provider id body w :
  isSegment id = true →
  (configurationChan (worldOf (serve provider (PUT ("/api/providers/" +:+ id) body) w))
     ≠ configurationChan w
   ↔ ReadOnly provider = false ∧ id = "web"
     ∧ (Decode.Unmarshal (bodyData body) zeroConfiguration).2 = None)
  ∧ (configurationChan (worldOf (serve provider (PUT ("/api/providers/" +:+ id) body) w))
       = configurationChan w
     ∨ configurationChan (worldOf (serve provider (PUT ("/api/providers/" +:+ id) body) w))
       = (configurationChan w
          ++ [mkConfigMessage "web"
                (Decode.Unmarshal (bodyData body) zeroConfiguration).1])%list).
Proof.
  intros Hid.
  destruct (decide (mux.cleanPath ("/api/providers/" +:+ id) = "/api/providers/" +:+ id))
    as [Hp | Hp].
  2: { rewrite serve_redirect by done. cbn [worldOf world].
       split; [split; [done | intros (_ & -> & _); by destruct Hp] | by left]. }
  destruct (ReadOnly provider) eqn:Hro.
  { rewrite (put_refused provider id body w Hid Hp) by auto. cbn [worldOf world].
    split; [split; [done | by intros [? _]] | by left]. }
  destruct (decide (id = "web")) as [-> | Hne].
  2: { rewrite (put_refused provider id body w Hid Hp) by auto. cbn [worldOf world].
       split; [split; [done | by intros (_ & ? & _)] | by left]. }
  change ("/api/providers/" +:+ "web") with "/api/providers/web".
  rewrite (put_web provider body w Hro).
  destruct (Decode.Unmarshal (bodyData body) zeroConfiguration) as [c [e|]]; cbn [fst snd].
  - cbn [worldOf world logged configurationChan].
    split; [split; [done | by intros (_ & _ & ?)] | by left].
  - rewrite getConfigHandler_world. cbn [logged sent configurationChan].
    split; [split; [done | intros _; apply snoc_ne] | by right].
Qed.

Ltac same_routes :=
  unfold mux.matches; cbn [mux.Methods mux.matcher mux.HandlerFunc];
  repeat match goal with
  | |- context [ bool_decide (?m = Method ?r) ] =>
      destruct (bool_decide (m = Method r)) eqn:?
  end;
  repeat match goal with
  | |- context [ mux.matchPath ?m ?p ] => destruct (mux.matchPath m p)
  end.

(** X12: the read-only flag, the address and the certificate and key
    files matter to no request but a PUT: two providers with the same
    debug flag serve every other request alike. *)
Theorem only_put_reads_the_read_only_flag provider provider' request w :
  Method request ≠ "PUT" →
  Debug provider = Debug provider' →
  serve provider request w = serve provider' request w.
Proof.
  intros Hm Hd. unfold serve, mux.ServeHTTP. cbv zeta.
  destruct (bool_decide (mux.cleanPath (URLPath request) ≠ URLPath request));
    [reflexivity|].
  unfold mux.handle, Provide. rewrite <- Hd.
  destruct (Debug provider); cbn [mux.Match app]; same_routes;
    try reflexivity;
    match goal with H : bool_decide ("PUT" = _) = true |- _ =>
      apply bool_decide_eq_true_1 in H; by destruct Hm end.
Qed.

Lemma matchSegments_literal ls pieces vars :
  mux.matchSegments (mux.Lit <$> ls) pieces = Some vars → pieces = ls.
Proof.
  revert pieces. induction ls as [|l ls IH]; intros [|p pieces]; cbn; try done.
  case_bool_decide; [|done]. intros ?%IH. by subst.
Qed.

Lemma debug_route_path path vars :
  mux.matchPath (mux.Path "/debug/vars") path = Some vars → path = "/debug/vars".
Proof.
  unfold mux.matchPath.
  change (mux.template "/debug/vars") with (mux.Lit <$> [""; "debug"; "vars"]).
  intros H%matchSegments_literal. rewrite <- (join_split path), H. reflexivity.
Qed.

Lemma putProviderHandler_flag provider provider' request :
  ReadOnly provider = ReadOnly provider' →
  putProviderHandler provider request = putProviderHandler provider' request.
Proof. intros H. unfold putProviderHandler. by rewrite H. Qed.

Ltac same_routes_eqn :=
  unfold mux.matches; cbn [mux.Methods mux.matcher mux.HandlerFunc];
  repeat match goal with
  | |- context [ bool_decide (?m = Method ?r) ] =>
      destruct (bool_decide (m = Method r)) eqn:?
  end;
  repeat match goal with
  | |- context [ mux.matchPath ?m ?p ] => destruct (mux.matchPath m p) eqn:?
  end.

(** X13: the debug flag matters to the path /debug/vars only: two
    providers with the same read-only flag serve every request for another
    path alike, the route of the debug flag being registered last and
    matching that path alone. *)
Theorem debug_flag_matters_to_debug_vars_only provider provider' request w :
  URLPath request ≠ "/debug/vars" →
  ReadOnly provider = ReadOnly provider' →
  serve provider request w = serve provider' request w.
Proof.
  intros Hp Hro. unfold serve, mux.ServeHTTP. cbv zeta.
  destruct (bool_decide (mux.cleanPath (URLPath request) ≠ URLPath request));
    [reflexivity|].
  unfold mux.handle, Provide.
  destruct (Debug provider), (Debug provider'); cbn [mux.Match app]; same_routes_eqn;
    try reflexivity;
    try (cbn [mux.HandlerFunc];
         by rewrite (putProviderHandler_flag provider provider' _ Hro));
    match goal with H : mux.matchPath (mux.Path "/debug/vars") _ = Some _ |- _ =>
      apply debug_route_path in H; by destruct Hp end.
Qed.

Lemma put_sends_exactly_when_witness :
  isSegment "web" = true
  ∧ (configurationChan
       (worldOf (serve readWrite (PUT ("/api/providers/" +:+ "web") (mkBody "[]" None))
                   (sampleWorld (DynConfigs sampleSnapshot))))
       ≠ configurationChan (sampleWorld (DynConfigs sampleSnapshot))
     ↔ ReadOnly readWrite = false ∧ "web" = "web"
       ∧ (Decode.Unmarshal (bodyData (mkBody "[]" None)) zeroConfiguration).2 = None).
Proof.
  split; [reflexivity|].
  apply (put_sends_exactly_when readWrite "web" (mkBody "[]" None)
           (sampleWorld (DynConfigs sampleSnapshot)) eq_refl).
Defined.

Lemma only_put_reads_the_read_only_flag_witness :
  Method (GET "/api/providers/docker") ≠ "PUT"
  ∧ Debug readWrite = Debug readOnly
  ∧ serve readWrite (GET "/api/providers/docker") (sampleWorld (DynConfigs sampleSnapshot))
    = serve readOnly (GET "/api/providers/docker") (sampleWorld (DynConfigs sampleSnapshot)).
Proof.
  split; [discriminate|]. split; [reflexivity|].
  apply (only_put_reads_the_read_only_flag readWrite readOnly
           (GET "/api/providers/docker") (sampleWorld (DynConfigs sampleSnapshot)));
    [discriminate | reflexivity].
Defined.

Lemma debug_flag_matters_to_debug_vars_only_witness :
  URLPath (GET "/api/providers/docker") ≠ "/debug/vars"
  ∧ ReadOnly readWrite = ReadOnly debugging
  ∧ serve readWrite (GET "/api/providers/docker") (sampleWorld (DynConfigs sampleSnapshot))
    = serve debugging (GET "/api/providers/docker") (sampleWorld (DynConfigs sampleSnapshot)).
Proof.
  split; [discriminate|]. split; [reflexivity|].
  apply (debug_flag_matters_to_debug_vars_only readWrite debugging
           (GET "/api/providers/docker") (sampleWorld (DynConfigs sampleSnapshot)));
    [discriminate | reflexivity].
Defined.
